(** * plane API server: module views (apiserver/plane/api/views/module.py)

    A shallow embedding of the two [create] views of the file:
    [ModuleViewSet.create] (create a module) and [ModuleIssueViewSet.create]
    (bulk-add issues to a module), followed by the properties of the
    bulk-add plan (links to create, links to move, activity deltas).

    Conventions of the embedding.
    - Identifiers are UUIDs; a UUID value is represented by its canonical
      text, so Python's [str(uuid)] is the identity.  The [issues] of a
      request are JSON strings: texts, which need not be canonical and need
      not denote a UUID at all.  The database compares UUID values, after
      converting a text with [to_python] (line 154, the batched insert);
      line 164 compares the canonical text of a stored id with the request
      texts as they were sent.  The URL arguments [project_id] and
      [module_id] are UUID values, so line 168 compares two UUIDs.
    - What the view calls and this file does not declare is a parameter, the
      class [Collaborators]: the conversion of a text to a UUID, the
      hand-over of the activity task, the filter backends of the listing.
      Each of them can raise.
    - A view is a computation over a world (database tables and a trace of
      the calls made to the collaborators) that returns a value or raises.
    - Python objects are references.  The objects fetched into
      [module_issues] live in a list; a position in that list is the object's
      identity, so the in-place assignment [module_issue[0].module_id = ...]
      is visible through every later read of the same object. *)

From stdpp Require Import base list strings gmap.

(** ** Data model *)

Definition UUID := string.

(** [str(u)] for a UUID [u]. *)
Definition str (u : UUID) : string := u.

(** A row of the module table, with the columns the views read. *)
Module Module_.
Record t := mk {
  pk : UUID;
  name : string;
  project_id : UUID;
  workspace : string  (* the workspace, identified by its slug *)
}.
End Module_.

(** A [ModuleIssue] instance: the link between one issue and one module.
    [pk] is the key of a stored row.  It is [None] in an instance the view
    builds: the key such an instance carries is drawn by the model's default,
    the view neither chooses nor reads it, and the insert is what gives the
    row its key here.  [issue_id] is a UUID in a stored row; in an instance
    built by the view it is the request text as given ([issue_id=issue],
    line 182). *)
Module ModuleIssue.
Record t := mk {
  pk : option nat;
  module_id : UUID;
  issue_id : UUID;
  project_id : UUID;
  workspace : string;
  created_by : UUID;
  updated_by : UUID
}.

(** [o.module_id = m] *)
Definition set_module_id (m : UUID) (o : t) : t :=
  mk (pk o) m (issue_id o) (project_id o) (workspace o)
     (created_by o) (updated_by o).

Definition set_pk (k : option nat) (o : t) : t :=
  mk k (module_id o) (issue_id o) (project_id o) (workspace o)
     (created_by o) (updated_by o).

Definition set_issue_id (i : UUID) (o : t) : t :=
  mk (pk o) (module_id o) i (project_id o) (workspace o)
     (created_by o) (updated_by o).
End ModuleIssue.

(** One entry of [update_module_issue_activity]: the dictionary with the
    keys [old_module_id], [new_module_id] and [issue_id]. *)
Module Delta.
Record t := mk {
  old_module_id : string;
  new_module_id : string;
  issue_id : string
}.
End Delta.

Global Instance Module__eq_dec : EqDecision Module_.t.
Proof. solve_decision. Defined.
Global Instance ModuleIssue_eq_dec : EqDecision ModuleIssue.t.
Proof. solve_decision. Defined.
Global Instance Delta_eq_dec : EqDecision Delta.t.
Proof. solve_decision. Defined.

(** ** The classification loop of [ModuleIssueViewSet.create] (lines 156-188) *)

(** The local variables the loop reads and writes.  [records_to_update]
    holds references (positions in [module_issues]) because the source
    appends the very object it has just assigned to. *)
Record Locals := mkLocals {
  module_issues : list ModuleIssue.t;
  update_module_issue_activity : list Delta.t;
  records_to_update : list nat;
  record_to_create : list ModuleIssue.t
}.

(** The list comprehension of lines 161-165,
    [[module_issue for module_issue in module_issues
       if str(module_issue.issue_id) in issues]],
    as the references of the selected objects, in order.  The loop variable
    [issue] does not occur in it. *)
Definition comprehension (issues : list string) (objs : list ModuleIssue.t)
  : list nat :=
  (filter (λ p : nat * ModuleIssue.t, str (ModuleIssue.issue_id p.2) ∈ issues)
          (imap pair objs)).*1.

Section Loop.
(** [request.user], the URL arguments and the module fetched at line 150. *)
Variable user : UUID.
Variable project_id module_id : UUID.
Variable module : Module_.t.
Variable issues : list string.

(** [ModuleIssue(module=module, issue_id=issue, project_id=project_id,
    workspace=module.workspace, created_by=request.user,
    updated_by=request.user)] *)
Definition new_ModuleIssue (issue : string) : ModuleIssue.t :=
  ModuleIssue.mk None (Module_.pk module) issue project_id
                 (Module_.workspace module) user user.

(** One iteration of [for issue in issues] (lines 161-188). *)
Definition loop_body (st : Locals) (issue : string) : Locals :=
  let module_issue := comprehension issues (module_issues st) in
  match module_issue with
  | r0 :: _ =>
      match module_issues st !! r0 with
      | Some o =>
          if decide (ModuleIssue.module_id o ≠ module_id) then
            mkLocals
              (<[r0 := ModuleIssue.set_module_id module_id o]> (module_issues st))
              (update_module_issue_activity st ++
                 [Delta.mk (str (ModuleIssue.module_id o)) (str module_id)
                           (str (ModuleIssue.issue_id o))])
              (records_to_update st ++ [r0])
              (record_to_create st)
          else st
      | None => st
      end
  | [] =>
      mkLocals (module_issues st) (update_module_issue_activity st)
               (records_to_update st)
               (record_to_create st ++ [new_ModuleIssue issue])
  end.

(** Lines 156-188: the three empty lists, then the loop in input order. *)
Definition loop (fetched : list ModuleIssue.t) : Locals :=
  foldl loop_body (mkLocals fetched [] [] []) issues.
End Loop.

(** The plan the loop leaves behind: the objects handed to [bulk_create],
    the objects handed to [bulk_update] (read through their references after
    the loop) and the activity deltas. *)
Record Plan := mkPlan {
  to_create : list ModuleIssue.t;
  to_update : list ModuleIssue.t;
  activity : list Delta.t
}.

Definition deref (objs : list ModuleIssue.t) (refs : list nat)
  : list ModuleIssue.t :=
  omap (λ r, objs !! r) refs.

Definition plan_of (st : Locals) : Plan :=
  mkPlan (record_to_create st)
         (deref (module_issues st) (records_to_update st))
         (update_module_issue_activity st).

(** ** The database and the collaborators *)

Record Database := mkDatabase {
  project_table : list (UUID * string);     (* (pk, workspace slug) *)
  module_table : list Module_.t;
  moduleissue_table : list ModuleIssue.t;   (* in the order queries return *)
  projectmember_table : list (UUID * UUID); (* (project, member) *)
  issue_table : list UUID                   (* the keys of the stored issues *)
}.

(** The payload given to [issue_activity.delay] (lines 203-219). *)
Record ActivityTask := mkActivityTask {
  requested_modules_list : list string;
  actor_id : string;
  task_issue_id : string;
  task_project_id : string;
  updated_module_issues : list Delta.t;
  created_module_issues : list ModuleIssue.t
}.

Inductive Exception :=
| Module_DoesNotExist
| Project_DoesNotExist
| MultipleObjectsReturned
| IntegrityError (message : string)
| ValueError (message : string)
| ValidationError (message : string)
| OperationalError (message : string).

(** Calls made to the collaborators, oldest first. *)
Inductive Event :=
| Project_get (slug : string) (pk : UUID)
| Module_save (name : string) (project_id : UUID)
| Module_get (slug : string) (project_id pk : UUID)
| ModuleIssue_filter (issue_id__in : list string)
| ModuleIssue_bulk_create (objs : list ModuleIssue.t)
| ModuleIssue_bulk_update (objs : list ModuleIssue.t)
| issue_activity_delay (task : ActivityTask)
| ModuleIssue_list (slug : string) (project_id module_id member : UUID)
| capture_exception (e : Exception).

Record World := mkWorld {
  db : Database;
  trace : list Event
}.

(** *** A small monad: state over the world, with exceptions *)

Inductive Outcome (A : Type) :=
| Returns (a : A)
| Raises (e : Exception).
Arguments Returns {A} a.
Arguments Raises {A} e.

Definition View (A : Type) : Type := World → Outcome A * World.

Global Instance View_ret : MRet View := λ A a w, (Returns a, w).
Global Instance View_bind : MBind View := λ A B k c w,
  match c w with
  | (Returns a, w') => k a w'
  | (Raises e, w') => (Raises e, w')
  end.

Definition raise {A} (e : Exception) : View A := λ w, (Raises e, w).

(** [try: c] followed by the [except] clauses [h]. *)
Definition try_except {A} (c : View A) (h : Exception → View A) : View A :=
  λ w, match c w with
       | (Returns a, w') => (Returns a, w')
       | (Raises e, w') => h e w'
       end.

Definition emit (ev : Event) : View unit :=
  λ w, (Returns (), mkWorld (db w) (trace w ++ [ev])).
Definition read_db : View Database := λ w, (Returns (db w), w).
Definition write_db (d : Database) : View unit :=
  λ w, (Returns (), mkWorld d (trace w)).

(** *** Collaborators declared outside this file *)

(** What [ModuleIssueViewSet] uses without declaring it, taken as
    parameters.
    - [to_python text]: the conversion the UUID fields of the models apply to
      a text before it reaches the database, [None] where it raises
      [ValidationError] because the text denotes no UUID.  It accepts
      spellings that are not canonical (upper-case digits, for one).
    - [delay task]: [issue_activity.delay(task)], [None] when the task was
      handed over, the exception raised otherwise (serialisation, broker).
    - [filter_queryset params rows]: [self.filter_queryset] of the base view
      set, which applies the query-string filters of [filterset_fields] and
      raises on a value it cannot use. *)
Class Collaborators := {
  to_python : string → option UUID;
  delay : ActivityTask → option Exception;
  filter_queryset :
    gmap string string → list ModuleIssue.t → Outcome (list ModuleIssue.t)
}.

(** *** The object manager calls of the bulk-add view *)

(** [Module.objects.get(workspace__slug=slug, project_id=project_id,
    pk=module_id)] (line 150). *)
Definition Module_objects_get (slug : string) (project_id pk : UUID)
  : View Module_.t :=
  emit (Module_get slug project_id pk);;
  d ← read_db;
  match filter (λ m, Module_.workspace m = slug
                     ∧ Module_.project_id m = project_id
                     ∧ Module_.pk m = pk) (module_table d) with
  | [] => raise Module_DoesNotExist
  | [m] => mret m
  | _ => raise MultipleObjectsReturned
  end.

(** The rows selected by [filter(issue_id__in=issues)], in query order: the
    stored links whose issue is the UUID that some requested text denotes. *)
Definition fetch `{Collaborators} (issues : list string)
    (t : list ModuleIssue.t) : list ModuleIssue.t :=
  filter (λ o, ModuleIssue.issue_id o ∈ omap to_python issues) t.

(** [list(ModuleIssue.objects.filter(issue_id__in=issues))] (line 154).  A
    text that denotes no UUID makes the query raise. *)
Definition ModuleIssue_objects_filter `{Collaborators} (issues : list string)
  : View (list ModuleIssue.t) :=
  emit (ModuleIssue_filter issues);;
  if decide (Forall (λ i, is_Some (to_python i)) issues) then
    d ← read_db;
    mret (fetch issues (moduleissue_table d))
  else raise (ValidationError "is not a valid UUID.").

Definition set_moduleissue_table (t : list ModuleIssue.t) (d : Database)
  : Database :=
  mkDatabase (project_table d) (module_table d) t (projectmember_table d)
             (issue_table d).

Definition fresh_pk (t : list ModuleIssue.t) : nat :=
  S (max_list (omap ModuleIssue.pk t)).

(** Modelled from the spec: the persistence collaborator's batched insert,
    whose table and constraints are declared outside this file.  It is
    conflict tolerant ([ignore_conflicts=True]): an object whose issue already
    has a link (the data model allows at most one link per issue) is skipped
    without an error; the others are inserted, each under a fresh key.  The
    issue of an object is the UUID its [issue_id] denotes, and that UUID is
    what the row stores. *)
Definition insert_ignore_conflicts `{Collaborators} (t : list ModuleIssue.t)
    (o : ModuleIssue.t) : list ModuleIssue.t :=
  match to_python (ModuleIssue.issue_id o) with
  | Some u =>
      if decide (u ∈ ModuleIssue.issue_id <$> t) then t
      else t ++ [ModuleIssue.set_pk (Some (fresh_pk t))
                                    (ModuleIssue.set_issue_id u o)]
  | None => t
  end.

(** The link table after a batched insert that went through. *)
Definition bulk_create_rows `{Collaborators} (objs t : list ModuleIssue.t)
  : list ModuleIssue.t :=
  foldl insert_ignore_conflicts t objs.

(** [ModuleIssue.objects.bulk_create(objs, batch_size=10,
    ignore_conflicts=True)] (lines 190-194).  The insert is one transaction:
    it raises, and stores nothing, when the [issue_id] of an object denotes
    no UUID or when a row it would add refers to an issue that is not
    stored (the foreign key of the link). *)
Definition ModuleIssue_objects_bulk_create `{Collaborators}
    (objs : list ModuleIssue.t) : View unit :=
  emit (ModuleIssue_bulk_create objs);;
  d ← read_db;
  if decide (Forall (λ o, is_Some (to_python (ModuleIssue.issue_id o))) objs)
  then
    let t' := bulk_create_rows objs (moduleissue_table d) in
    if decide (Forall (λ row, ModuleIssue.issue_id row ∈ issue_table d)
                      (drop (length (moduleissue_table d)) t'))
    then write_db (set_moduleissue_table t' d)
    else raise (IntegrityError "violates foreign key constraint")
  else raise (ValidationError "is not a valid UUID.").

(** The row [row] after an update of its [module] column from object [o]. *)
Definition update_row (o row : ModuleIssue.t) : ModuleIssue.t :=
  if decide (ModuleIssue.pk row = ModuleIssue.pk o)
  then ModuleIssue.set_module_id (ModuleIssue.module_id o) row
  else row.

(** [ModuleIssue.objects.bulk_update(objs, ["module"], batch_size=10)]
    (lines 196-200): each object's [module] is written to the row with its
    primary key; an object without a primary key is refused. *)
Definition bulk_update_rows (objs t : list ModuleIssue.t)
  : list ModuleIssue.t :=
  foldl (λ t o, update_row o <$> t) t objs.

Definition ModuleIssue_objects_bulk_update (objs : list ModuleIssue.t)
  : View unit :=
  emit (ModuleIssue_bulk_update objs);;
  if decide (Forall (λ o, is_Some (ModuleIssue.pk o)) objs) then
    d ← read_db;
    write_db (set_moduleissue_table (bulk_update_rows objs (moduleissue_table d)) d)
  else raise (ValueError "All bulk_update() objects must have a primary key set.").

(** ** Responses *)

Inductive Body :=
| Dict (entries : list (string * string))
| ModuleIssueList (rows : list ModuleIssue.t)
| SerializerData (m : Module_.t).

Record Response := mkResponse {
  data : Body;
  status : nat
}.

Definition HTTP_200_OK := 200.
Definition HTTP_201_CREATED := 201.
Definition HTTP_400_BAD_REQUEST := 400.
Definition HTTP_404_NOT_FOUND := 404.
Definition HTTP_410_GONE := 410.

(** A client-error status is a 4xx status. *)
Definition is_client_error (s : nat) : Prop := 400 ≤ s ∧ s < 500.

(** The response of the generic [except Exception] clause of both views. *)
Definition generic_failure : Response :=
  mkResponse (Dict [("error", "Something went wrong please try again later")])
             HTTP_400_BAD_REQUEST.

(** The two 400 responses of the bulk-add view (lines 147-149, 226-228). *)
Definition issues_required : Response :=
  mkResponse (Dict [("error", "Issues are required")]) HTTP_400_BAD_REQUEST.
Definition module_does_not_exist : Response :=
  mkResponse (Dict [("error", "Module Does not exists")]) HTTP_400_BAD_REQUEST.

(** The 410 response of the module-create view (lines 89-92). *)
Definition name_taken : Response :=
  mkResponse (Dict [("name", "The module name is already taken")]) HTTP_410_GONE.

(** ** [ModuleIssueViewSet] *)

Module ModuleIssueViewSet.

(** The request of the bulk-add endpoint: the JSON body as a dictionary,
    the query string and the authenticated user. *)
Record Request := mkRequest {
  request_data : gmap string (list string);
  query_params : gmap string string;
  request_user : UUID
}.

(** [request.data.get("issues", [])] (line 145). *)
Definition requested_issues (request : Request) : list string :=
  default [] (request_data request !! "issues").

(** [self.get_queryset()] (lines 120-141), evaluated.  The filters of the
    source select the rows; [filter_queryset] is applied to them and can
    raise, in which case nothing is listed. *)
Definition get_queryset `{Collaborators} (request : Request) (slug : string)
    (project_id module_id : UUID) : View (list ModuleIssue.t) :=
  d ← read_db;
  match filter_queryset (query_params request)
          (filter (λ o, ModuleIssue.workspace o = slug
                        ∧ ModuleIssue.project_id o = project_id
                        ∧ ModuleIssue.module_id o = module_id
                        ∧ (ModuleIssue.project_id o, request_user request)
                            ∈ projectmember_table d)
                  (moduleissue_table d)) with
  | Returns rows =>
      emit (ModuleIssue_list slug project_id module_id (request_user request));;
      mret rows
  | Raises e => raise e
  end.

(** [issue_activity.delay(task)] (lines 203-219). *)
Definition call_issue_activity_delay `{Collaborators} (task : ActivityTask)
  : View unit :=
  emit (issue_activity_delay task);;
  match delay task with
  | None => mret ()
  | Some e => raise e
  end.

(** The plan computed by lines 154-188 from the fetched links. *)
Definition plan (request : Request) (project_id module_id : UUID)
    (module : Module_.t) (issues : list string)
    (fetched : list ModuleIssue.t) : Plan :=
  plan_of (loop (request_user request) project_id module_id module issues
                fetched).

(** [def create(self, request, slug, project_id, module_id)]
    (lines 143-234). *)
Definition create `{Collaborators} (request : Request) (slug : string)
    (project_id module_id : UUID) : View Response :=
  try_except
    (let issues := requested_issues request in
     if decide (length issues = 0) then
       mret issues_required
     else
       module ← Module_objects_get slug project_id module_id;
       fetched ← ModuleIssue_objects_filter issues;
       let p := plan request project_id module_id module issues fetched in
       ModuleIssue_objects_bulk_create (to_create p);;
       ModuleIssue_objects_bulk_update (to_update p);;
       call_issue_activity_delay
         (mkActivityTask issues (str (request_user request))
            "None" (str project_id) (activity p) (to_create p));;
       rows ← get_queryset request slug project_id module_id;
       mret (mkResponse (ModuleIssueList rows) HTTP_200_OK))
    (λ e, match e with
          | Module_DoesNotExist => mret module_does_not_exist
          | _ => emit (capture_exception e);; mret generic_failure
          end).

End ModuleIssueViewSet.

(** The link table after the two batched writes of lines 190-200. *)
Definition apply_plan `{Collaborators} (p : Plan) (t : list ModuleIssue.t)
  : list ModuleIssue.t :=
  bulk_update_rows (to_update p) (bulk_create_rows (to_create p) t).

(** ** [ModuleViewSet] *)

(** Python's [needle in haystack] on strings. *)
Definition contains (needle haystack : string) : bool :=
  match String.index 0 needle haystack with
  | Some _ => true
  | None => false
  end.

Module ModuleViewSet.

(** The request of the module-create endpoint: the JSON body, as text
    fields. *)
Record Request := mkRequest {
  request_data : gmap string string
}.

(** [Project.objects.get(workspace__slug=slug, pk=project_id)] (line 73). *)
Definition Project_objects_get (slug : string) (pk : UUID)
  : View (UUID * string) :=
  emit (Project_get slug pk);;
  d ← read_db;
  match filter (λ p : UUID * string, p.2 = slug ∧ p.1 = pk) (project_table d) with
  | [] => raise Project_DoesNotExist
  | [p] => mret p
  | _ => raise MultipleObjectsReturned
  end.

Section Serializer.
(** Declared in [plane.api.serializers] and in the database engine, not
    in this file: the field validation of [ModuleWriteSerializer] with
    its error dictionary, the key given to a new module, and the text of
    the [IntegrityError] raised for a module name that is taken. *)
Variable is_valid : gmap string string → bool.
Variable errors : gmap string string → list (string * string).
Variable new_pk : Database → UUID.
Variable unique_violation : string → UUID → string.

(** Modelled from the spec: [serializer.save()] for
    [ModuleWriteSerializer], which is declared outside this file.  A
    module name is unique per project; saving a name the project already
    has violates the constraint and raises the engine's
    [IntegrityError]; otherwise the module row is inserted. *)
Definition serializer_save (data : gmap string string)
    (project : UUID * string) : View Module_.t :=
  let name := default "" (data !! "name") in
  emit (Module_save name project.1);;
  d ← read_db;
  if decide (Exists (λ m, Module_.name m = name
                          ∧ Module_.project_id m = project.1)
                    (module_table d))
  then raise (IntegrityError (unique_violation name project.1))
  else
    let m := Module_.mk (new_pk d) name project.1 project.2 in
    write_db (mkDatabase (project_table d) (module_table d ++ [m])
                         (moduleissue_table d) (projectmember_table d)
                         (issue_table d));;
    mret m.

(** [def create(self, request, slug, project_id)] (lines 71-98).  The
    result is [None] where the Python function ends without a [return]
    (an [IntegrityError] whose text lacks ["already exists"]). *)
Definition create (request : Request) (slug : string) (project_id : UUID)
  : View (option Response) :=
  try_except
    (project ← Project_objects_get slug project_id;
     if is_valid (request_data request) then
       m ← serializer_save (request_data request) project;
       mret (Some (mkResponse (SerializerData m) HTTP_201_CREATED))
     else
       mret (Some (mkResponse (Dict (errors (request_data request)))
                              HTTP_400_BAD_REQUEST)))
    (λ e, match e with
          | Project_DoesNotExist =>
              mret (Some (mkResponse (Dict [("error", "Project was not found")])
                                     HTTP_404_NOT_FOUND))
          | IntegrityError message =>
              if contains "already exists" message then mret (Some name_taken)
              else mret None
          | _ => emit (capture_exception e);; mret (Some generic_failure)
          end).
End Serializer.

End ModuleViewSet.

(** ** Vocabulary of the properties *)

(** The module row that [Module.objects.get] looks for exists. *)
Definition module_exists (d : Database) (slug : string)
    (project_id module_id : UUID) : Prop :=
  Exists (λ m, Module_.workspace m = slug
               ∧ Module_.project_id m = project_id
               ∧ Module_.pk m = module_id) (module_table d).

(** Issue [i] has a link in table [t]; issue [i] is linked to module [m]. *)
Definition has_link (t : list ModuleIssue.t) (i : UUID) : Prop :=
  ∃ o, o ∈ t ∧ ModuleIssue.issue_id o = i.
Definition linked_to (t : list ModuleIssue.t) (i m : UUID) : Prop :=
  ∃ o, o ∈ t ∧ ModuleIssue.issue_id o = i ∧ ModuleIssue.module_id o = m.

(** A requested text denotes an issue that has a link, or a link to module
    [m]; a requested text is the canonical text of the UUID it denotes. *)
Definition issue_has_link `{Collaborators} (t : list ModuleIssue.t)
    (text : string) : Prop :=
  ∃ u, to_python text = Some u ∧ has_link t u.
Definition issue_linked_to `{Collaborators} (t : list ModuleIssue.t)
    (text : string) (m : UUID) : Prop :=
  ∃ u, to_python text = Some u ∧ linked_to t u m.
Definition canonical `{Collaborators} (text : string) : Prop :=
  to_python text = Some text.

(** The fetched links whose canonical text is among the request texts: the
    objects the comprehension of lines 161-165 selects. *)
Definition matching (issues : list string) (fetched : list ModuleIssue.t)
  : list ModuleIssue.t :=
  filter (λ o, str (ModuleIssue.issue_id o) ∈ issues) fetched.

(** The data-model invariant: an issue belongs to at most one module. *)
Definition one_module_per_issue (t : list ModuleIssue.t) : Prop :=
  ∀ o o', o ∈ t → o' ∈ t →
    ModuleIssue.issue_id o = ModuleIssue.issue_id o' →
    ModuleIssue.module_id o = ModuleIssue.module_id o'.

(** The number of plan entries (creates and updates) for issue [i], and the
    number of times [i] occurs in a request list. *)
Definition entries_for (i : UUID) (p : Plan) : nat :=
  length (filter (λ o, ModuleIssue.issue_id o = i) (to_create p ++ to_update p)).
Definition occurrences (i : string) (issues : list string) : nat :=
  length (filter (λ j, j = i) issues).

(** The calls that write links. *)
Definition is_link_write (ev : Event) : bool :=
  match ev with
  | ModuleIssue_bulk_create _ | ModuleIssue_bulk_update _ => true
  | _ => false
  end.

(** The calls that read modules. *)
Definition is_module_read (ev : Event) : bool :=
  match ev with
  | Module_get _ _ _ => true
  | _ => false
  end.

(** Every row of a link table has a primary key, and the keys are distinct:
    what a database table guarantees. *)
Definition all_saved (t : list ModuleIssue.t) : Prop :=
  Forall (λ o, is_Some (ModuleIssue.pk o)) t.
Definition distinct_keys (t : list ModuleIssue.t) : Prop :=
  NoDup (ModuleIssue.pk <$> t).

(** The two batched writes of a run go through: the request has issues,
    the module lookup finds [module], every requested text denotes a UUID,
    the rows the insert adds refer to stored issues, and the objects to
    update have keys. *)
Definition writes_pass `{Collaborators} (d : Database)
    (request : ModuleIssueViewSet.Request) (slug : string)
    (project_id module_id : UUID) (module : Module_.t) : Prop :=
  let issues := ModuleIssueViewSet.requested_issues request in
  let t := moduleissue_table d in
  let p := ModuleIssueViewSet.plan request project_id module_id module issues
                                   (fetch issues t) in
  issues ≠ []
  ∧ filter (λ m, Module_.workspace m = slug ∧ Module_.project_id m = project_id
                 ∧ Module_.pk m = module_id) (module_table d) = [module]
  ∧ Forall (λ i, is_Some (to_python i)) issues
  ∧ Forall (λ row, ModuleIssue.issue_id row ∈ issue_table d)
           (drop (length t) (bulk_create_rows (to_create p) t))
  ∧ Forall (λ o, is_Some (ModuleIssue.pk o)) (to_update p).

(** The calls that hand a task to the activity worker. *)
Definition is_activity_task (ev : Event) : bool :=
  match ev with
  | issue_activity_delay _ => true
  | _ => false
  end.

(** ** Scenario data: project [P] of workspace [acme], modules [M1], [M2] *)

(** The scenarios write a UUID as a short name.  The canonical text of a name
    is in upper case; as the digits of a UUID are, its letters are accepted
    in either case, and a text with any other character, or none, denotes
    nothing. *)
Definition upper (c : Ascii.ascii) : Ascii.ascii :=
  let n := Ascii.nat_of_ascii c in
  if decide (97 ≤ n ≤ 122) then Ascii.ascii_of_nat (n - 32) else c.
Definition is_name_char (c : Ascii.ascii) : bool :=
  let n := Ascii.nat_of_ascii c in
  bool_decide (48 ≤ n ≤ 57 ∨ 65 ≤ n ≤ 90).
Fixpoint upper_text (s : string) : string :=
  match s with
  | EmptyString => EmptyString
  | String c r => String (upper c) (upper_text r)
  end.
Fixpoint all_chars (f : Ascii.ascii → bool) (s : string) : bool :=
  match s with
  | EmptyString => true
  | String c r => f c && all_chars f r
  end.
Definition name_to_python (text : string) : option UUID :=
  let u := upper_text text in
  if bool_decide (u ≠ "") && all_chars is_name_char u then Some u else None.

(** The collaborators of the scenarios: names for UUIDs, a task queue that
    accepts every task, a request without query-string filters. *)
Global Instance scenario : Collaborators := {|
  to_python := name_to_python;
  delay := λ _, None;
  filter_queryset := λ _ rows, Returns rows
|}.

Definition link (k : nat) (issue module : UUID) : ModuleIssue.t :=
  ModuleIssue.mk (Some k) module issue "P" "acme" "ann" "ann".

Definition M1 : Module_.t := Module_.mk "M1" "Backlog" "P" "acme".
Definition M2 : Module_.t := Module_.mk "M2" "Release" "P" "acme".

Definition database_with (links : list ModuleIssue.t) : Database :=
  mkDatabase [("P", "acme")] [M1; M2] links [("P", "bob")] ["A"; "B"; "C"].

Definition bulk_add (issues : list string) : ModuleIssueViewSet.Request :=
  ModuleIssueViewSet.mkRequest {["issues" := issues]} ∅ "bob".

(** The text PostgreSQL puts in the error for a duplicate (name, project). *)
Definition postgres_unique_violation (name : string) (project : UUID) : string :=
  "duplicate key value violates unique constraint DETAIL:  Key (name, project_id)=("
    +:+ name +:+ ", " +:+ project +:+ ") already exists.".

(** * Properties *)

(** ** The comprehension and the fetched links *)

Lemma comprehension_nil issues : comprehension issues [] = [].
Proof. reflexivity. Qed.

(** The references the comprehension gives, counted from [k]. *)
Lemma comprehension_from (issues : list string) (k : nat) (objs : list ModuleIssue.t) :
  (filter (λ p : nat * ModuleIssue.t, str (ModuleIssue.issue_id p.2) ∈ issues)
          (imap (λ i x, (k + i, x)) objs)).*1
  = match objs with
    | [] => []
    | x :: rest =>
        let later :=
          (filter (λ p : nat * ModuleIssue.t,
                     str (ModuleIssue.issue_id p.2) ∈ issues)
                  (imap (λ i x, (S k + i, x)) rest)).*1 in
        if decide (str (ModuleIssue.issue_id x) ∈ issues) then k :: later
        else later
    end.
Proof.
  destruct objs as [|x rest]; [done|].
  rewrite imap_cons.
  assert (Hnext : imap ((λ i y, (k + i, y)) ∘ S) rest
                  = imap (λ i y, (S k + i, y)) rest).
  { apply imap_ext. intros i y _. cbn. f_equal. lia. }
  rewrite Hnext. cbn zeta. case_decide as Hx.
  - rewrite filter_cons_True by done.
    cbn. by rewrite Nat.add_0_r.
  - by rewrite filter_cons_False by done.
Qed.

(** Objects that fail the test are passed over; the first that passes is the
    first selected reference. *)
Lemma comprehension_first_from (issues : list string) k pre o post :
  Forall (λ x, str (ModuleIssue.issue_id x) ∉ issues) pre →
  str (ModuleIssue.issue_id o) ∈ issues →
  ∃ refs,
    (filter (λ p : nat * ModuleIssue.t, str (ModuleIssue.issue_id p.2) ∈ issues)
            (imap (λ i x, (k + i, x)) (pre ++ o :: post))).*1
    = (k + length pre) :: refs.
Proof.
  intros Hpre Ho. revert k.
  induction Hpre as [|x pre Hx Hpre IH]; intros k.
  - rewrite comprehension_from. cbn [app]. rewrite decide_True by done.
    cbn. rewrite Nat.add_0_r. by eexists.
  - rewrite comprehension_from. cbn [app]. rewrite decide_False by done.
    cbn zeta. destruct (IH (S k)) as [refs ->].
    exists refs. f_equal. cbn. lia.
Qed.

Lemma comprehension_none_from (issues : list string) k objs :
  Forall (λ x, str (ModuleIssue.issue_id x) ∉ issues) objs →
  (filter (λ p : nat * ModuleIssue.t, str (ModuleIssue.issue_id p.2) ∈ issues)
          (imap (λ i x, (k + i, x)) objs)).*1 = [].
Proof.
  intros Hall. revert k. induction Hall as [|x objs Hx Hall IH]; intros k.
  - done.
  - rewrite comprehension_from. rewrite decide_False by done. apply IH.
Qed.

Lemma comprehension_first (issues : list string) pre o post :
  Forall (λ x, str (ModuleIssue.issue_id x) ∉ issues) pre →
  str (ModuleIssue.issue_id o) ∈ issues →
  ∃ refs, comprehension issues (pre ++ o :: post) = length pre :: refs.
Proof. intros Hpre Ho. apply (comprehension_first_from issues 0); done. Qed.

Lemma comprehension_none (issues : list string) objs :
  Forall (λ x, str (ModuleIssue.issue_id x) ∉ issues) objs →
  comprehension issues objs = [].
Proof. intros Hall. by apply (comprehension_none_from issues 0). Qed.

(** The selected objects, by value rather than by reference. *)
Lemma matching_none (issues : list string) objs :
  matching issues objs = [] →
  Forall (λ x, str (ModuleIssue.issue_id x) ∉ issues) objs.
Proof.
  intros Hnil. apply Forall_forall. intros x Hx Hin.
  by apply (filter_nil_not_elem_of _ _ x Hnil Hin).
Qed.

Lemma matching_first (issues : list string) objs o rest :
  matching issues objs = o :: rest →
  ∃ pre post,
    objs = pre ++ o :: post
    ∧ Forall (λ x, str (ModuleIssue.issue_id x) ∉ issues) pre
    ∧ str (ModuleIssue.issue_id o) ∈ issues
    ∧ rest = matching issues post.
Proof.
  unfold matching. induction objs as [|x objs IH]; [done|].
  destruct (decide (str (ModuleIssue.issue_id x) ∈ issues)) as [Hx|Hx].
  - rewrite filter_cons_True by done. intros [= -> <-].
    by exists [], objs.
  - rewrite filter_cons_False by done. intros Heq.
    destruct (IH Heq) as (pre & post & -> & Hpre & Ho & Hrest).
    exists (x :: pre), post. by repeat split; [constructor|..].
Qed.

Lemma matching_elem (issues : list string) objs o rest :
  matching issues objs = o :: rest →
  str (ModuleIssue.issue_id o) ∈ issues ∧ o ∈ objs.
Proof.
  intros Heq.
  assert (Ho : o ∈ matching issues objs) by (rewrite Heq; by left).
  by apply list_elem_of_filter in Ho.
Qed.

Section FetchFacts.
Context `{!Collaborators}.

Lemma fetch_nil (issues : list string) t :
  fetch issues t = [] ↔ ∀ o, o ∈ t → ¬ ∃ i, i ∈ issues
                                   ∧ to_python i = Some (ModuleIssue.issue_id o).
Proof.
  unfold fetch. split.
  - intros Hnil o Ho (i & Hi & Hpy).
    apply (filter_nil_not_elem_of _ _ o Hnil); [|done].
    apply list_elem_of_omap. by exists i.
  - intros Hall. induction t as [|o t IH]; [done|].
    rewrite filter_cons_False.
    + apply IH. intros o' Ho'. apply Hall. by right.
    + intros (i & Hi & Hpy)%list_elem_of_omap.
      apply (Hall o); [by left|]. by exists i.
Qed.

Lemma fetch_elem (issues : list string) t o :
  o ∈ fetch issues t ↔
  o ∈ t ∧ ∃ i, i ∈ issues ∧ to_python i = Some (ModuleIssue.issue_id o).
Proof.
  unfold fetch. rewrite list_elem_of_filter, list_elem_of_omap. tauto.
Qed.

(** Canonical request texts denote themselves. *)
Lemma omap_canonical (issues : list string) :
  (∀ i, i ∈ issues → canonical i) → omap to_python issues = issues.
Proof.
  induction issues as [|i l IH]; intros Hcan; [done|].
  cbn. rewrite (Hcan i) by (by left). cbn. f_equal.
  apply IH. intros j Hj. apply Hcan. by right.
Qed.

(** A request spelt canonically fetches the links of the texts it names,
    and the comprehension selects them all. *)
Lemma fetch_canonical (issues : list string) t :
  (∀ i, i ∈ issues → canonical i) →
  fetch issues t = filter (λ o, ModuleIssue.issue_id o ∈ issues) t
  ∧ matching issues (fetch issues t) = fetch issues t.
Proof.
  intros Hcan. unfold fetch, matching. rewrite omap_canonical by done.
  split; [done|]. unfold str.
  rewrite list_filter_filter. apply list_filter_iff. tauto.
Qed.

(** No link under a requested text: the comprehension selects nothing. *)
Lemma matching_no_links (issues : list string) t :
  (∀ i, i ∈ issues → ¬ has_link t i) →
  matching issues (fetch issues t) = [].
Proof.
  intros Hnone.
  destruct (matching issues (fetch issues t)) as [|o rest] eqn:Hm; [done|].
  destruct (matching_elem _ _ _ _ Hm) as [Hin Ho].
  apply fetch_elem in Ho as [Ho _].
  destruct (Hnone _ Hin). by exists o.
Qed.

(** No link of a requested issue: nothing is fetched. *)
Lemma fetch_no_links (issues : list string) t :
  (∀ i, i ∈ issues → ¬ issue_has_link t i) → fetch issues t = [].
Proof.
  intros Hnone. apply fetch_nil. intros o Ho (i & Hi & Hpy).
  apply (Hnone i Hi). exists (ModuleIssue.issue_id o). split; [done|].
  by exists o.
Qed.
End FetchFacts.

(** ** The loop, case by case *)

Section LoopFacts.
Variable user : UUID.
Variable project_id module_id : UUID.
Variable module : Module_.t.
Variable issues : list string.

Local Abbreviation body := (loop_body user project_id module_id module issues).
Local Abbreviation new := (new_ModuleIssue user project_id module).
Local Abbreviation unmatched :=
  (Forall (λ x : ModuleIssue.t, str (ModuleIssue.issue_id x) ∉ issues)).

(** Nothing selected: every iteration appends one new link. *)
Lemma foldl_body_nothing_selected l st :
  unmatched (module_issues st) →
  foldl body st l =
    mkLocals (module_issues st) (update_module_issue_activity st)
             (records_to_update st) (record_to_create st ++ (new <$> l)).
Proof.
  revert st. induction l as [|i l IH]; intros st Hnone.
  - destruct st. cbn. by rewrite app_nil_r.
  - cbn [foldl]. rewrite IH.
    + unfold loop_body. rewrite (comprehension_none _ _ Hnone). cbn.
      by rewrite <- app_assoc.
    + unfold loop_body. by rewrite (comprehension_none _ _ Hnone).
Qed.

(** The first selected link is in the target module: an iteration changes
    nothing. *)
Lemma body_settled st issue pre o post :
  module_issues st = pre ++ o :: post →
  unmatched pre →
  str (ModuleIssue.issue_id o) ∈ issues →
  ModuleIssue.module_id o = module_id →
  body st issue = st.
Proof.
  intros Hobjs Hpre Hin Hmod. unfold loop_body. rewrite Hobjs.
  destruct (comprehension_first issues pre o post Hpre Hin) as [refs ->].
  rewrite list_lookup_middle by done.
  by rewrite decide_False by (intros Hne; by apply Hne).
Qed.

Lemma foldl_body_settled l st pre o post :
  module_issues st = pre ++ o :: post →
  unmatched pre →
  str (ModuleIssue.issue_id o) ∈ issues →
  ModuleIssue.module_id o = module_id →
  foldl body st l = st.
Proof.
  intros Hobjs Hpre Hin Hmod. induction l as [|i l IH]; [done|].
  cbn [foldl]. by rewrite (body_settled st i pre o post).
Qed.

(** The first selected link is elsewhere: an iteration moves it, records the
    delta and keeps a reference to it. *)
Lemma body_moves st issue pre o post :
  module_issues st = pre ++ o :: post →
  unmatched pre →
  str (ModuleIssue.issue_id o) ∈ issues →
  ModuleIssue.module_id o ≠ module_id →
  body st issue =
    mkLocals (pre ++ ModuleIssue.set_module_id module_id o :: post)
             (update_module_issue_activity st ++
                [Delta.mk (ModuleIssue.module_id o) module_id
                          (ModuleIssue.issue_id o)])
             (records_to_update st ++ [length pre])
             (record_to_create st).
Proof.
  intros Hobjs Hpre Hin Hmod. unfold loop_body. rewrite Hobjs.
  destruct (comprehension_first issues pre o post Hpre Hin) as [refs ->].
  rewrite list_lookup_middle by done. rewrite decide_True by done.
  f_equal. rewrite insert_app_r_alt by done.
  by rewrite Nat.sub_diag.
Qed.

Lemma foldl_body_moves l st pre o post :
  l ≠ [] →
  module_issues st = pre ++ o :: post →
  unmatched pre →
  str (ModuleIssue.issue_id o) ∈ issues →
  ModuleIssue.module_id o ≠ module_id →
  foldl body st l =
    mkLocals (pre ++ ModuleIssue.set_module_id module_id o :: post)
             (update_module_issue_activity st ++
                [Delta.mk (ModuleIssue.module_id o) module_id
                          (ModuleIssue.issue_id o)])
             (records_to_update st ++ [length pre])
             (record_to_create st).
Proof.
  intros Hne Hobjs Hpre Hin Hmod. destruct l as [|i l]; [done|].
  cbn [foldl]. rewrite (body_moves st i pre o post) by done.
  by rewrite (foldl_body_settled l _ pre
                (ModuleIssue.set_module_id module_id o) post).
Qed.

(** *** The plan in closed form *)

(** The whole plan depends on the first selected link only: the first
    fetched link whose canonical text is among the request texts. *)
Lemma loop_cases fetched :
  plan_of (loop user project_id module_id module issues fetched) =
    match matching issues fetched with
    | [] => mkPlan (new <$> issues) [] []
    | o :: _ =>
        if decide (ModuleIssue.module_id o = module_id) then mkPlan [] [] []
        else mkPlan [] [ModuleIssue.set_module_id module_id o]
                    [Delta.mk (ModuleIssue.module_id o) module_id
                              (ModuleIssue.issue_id o)]
    end.
Proof.
  unfold loop.
  destruct (matching issues fetched) as [|o rest] eqn:Hm.
  - by rewrite foldl_body_nothing_selected by (by apply matching_none).
  - destruct (matching_first _ _ _ _ Hm) as (pre & post & -> & Hpre & Hin & _).
    case_decide as Hmod.
    + by rewrite (foldl_body_settled issues _ pre o post).
    + rewrite (foldl_body_moves issues _ pre o post); [|
        by intros ->; apply elem_of_nil in Hin|done..].
      unfold plan_of, deref. cbn. by rewrite list_lookup_middle.
Qed.
End LoopFacts.

(** ** The plan of a bulk-add, from the link table *)

Lemma plan_cases request project_id module_id module issues fetched :
  ModuleIssueViewSet.plan request project_id module_id module issues fetched =
    match matching issues fetched with
    | [] =>
        mkPlan (new_ModuleIssue (ModuleIssueViewSet.request_user request)
                                project_id module <$> issues) [] []
    | o :: _ =>
        if decide (ModuleIssue.module_id o = module_id) then mkPlan [] [] []
        else mkPlan [] [ModuleIssue.set_module_id module_id o]
                    [Delta.mk (ModuleIssue.module_id o) module_id
                              (ModuleIssue.issue_id o)]
    end.
Proof. apply loop_cases. Qed.

Lemma plan_no_links `{!Collaborators}
    request project_id module_id module issues t :
  (∀ i, i ∈ issues → ¬ has_link t i) →
  ModuleIssueViewSet.plan request project_id module_id module issues
                          (fetch issues t)
  = mkPlan (new_ModuleIssue (ModuleIssueViewSet.request_user request)
                            project_id module <$> issues) [] [].
Proof.
  intros Hnone. rewrite plan_cases. by rewrite matching_no_links.
Qed.
Lemma length_remove_dups_le (l : list string) :
  length (remove_dups l) ≤ length l.
Proof.
  induction l as [|x l IH]; cbn; [lia|].
  case_decide; cbn; lia.
Qed.

Lemma length_remove_dups_NoDup (l : list string) :
  length (remove_dups l) = length l ↔ NoDup l.
Proof.
  induction l as [|x l IH]; cbn.
  - split; [constructor|done].
  - pose proof (length_remove_dups_le l) as Hle.
    rewrite NoDup_cons. case_decide as Hx; cbn.
    + split; [lia|]. intros [Hnx _]. done.
    + split.
      * intros Hlen. split; [done|]. apply IH. lia.
      * intros [_ Hnd]. apply IH in Hnd. lia.
Qed.

Lemma entries_of_new user project_id module i (l : list string) :
  length (filter (λ o, ModuleIssue.issue_id o = i)
                 (new_ModuleIssue user project_id module <$> l))
  = occurrences i l.
Proof.
  unfold occurrences. induction l as [|j l IH]; [done|].
  cbn [fmap list_fmap]. destruct (decide (j = i)) as [Hji|Hji].
  - rewrite !filter_cons_True by done. cbn. by rewrite IH.
  - rewrite !filter_cons_False by done. done.
Qed.

Lemma occurrences_elem_of i (l : list string) : i ∈ l → 1 ≤ occurrences i l.
Proof.
  unfold occurrences. induction l as [|j l IH]; intros Hin.
  - by apply elem_of_nil in Hin.
  - destruct (decide (j = i)) as [Hji|Hji].
    + rewrite filter_cons_True by done. cbn. lia.
    + rewrite filter_cons_False by done.
      apply elem_of_cons in Hin as [->|Hin]; [done|]. by apply IH.
Qed.

Lemma occurrences_not_elem_of i (l : list string) : i ∉ l → occurrences i l = 0.
Proof.
  unfold occurrences. induction l as [|j l IH]; intros Hin; [done|].
  apply not_elem_of_cons in Hin as [Hne Hin].
  rewrite filter_cons_False by done. by apply IH.
Qed.

Lemma occurrences_NoDup i (l : list string) : NoDup l → occurrences i l ≤ 1.
Proof.
  induction 1 as [|j l Hj Hnd IH]; [cbn; lia|].
  destruct (decide (j = i)) as [->|Hji].
  - pose proof (occurrences_not_elem_of i l Hj) as H0.
    unfold occurrences in *. rewrite filter_cons_True by done. cbn. lia.
  - unfold occurrences in *. by rewrite filter_cons_False.
Qed.

(** ** Plans never mix creates and updates *)

(** C9, as the code has it: in one bulk-add the create-plan and the
    update-plan are never both non-empty.  If some requested text is the
    canonical text of an issue that has a link, nothing is created, for any
    requested issue.  If no requested issue has a link, the update-plan and
    the activity deltas are empty and the create-plan has one entry per
    element of the request list, in order, duplicates included; the same
    holds when no stored link has a requested text as its canonical text. *)
Theorem create_and_update_plans_exclusive `{!Collaborators}
    request project_id module_id module issues t :
  let p := ModuleIssueViewSet.plan request project_id module_id module issues
                                   (fetch issues t) in
  (to_create p = [] ∨ to_update p = [])
  ∧ ((∃ i, i ∈ issues ∧ canonical i ∧ has_link t i) → to_create p = [])
  ∧ ((∀ i, i ∈ issues → ¬ issue_has_link t i) →
       to_update p = [] ∧ activity p = []
       ∧ ModuleIssue.issue_id <$> to_create p = issues
       ∧ length (to_create p) = length issues)
  ∧ ((∀ i, i ∈ issues → ¬ has_link t i) →
       to_update p = [] ∧ activity p = []
       ∧ ModuleIssue.issue_id <$> to_create p = issues
       ∧ length (to_create p) = length issues).
Proof.
  cbn zeta. rewrite plan_cases.
  assert (Hnew : ∀ user,
            ModuleIssue.issue_id <$> (new_ModuleIssue user project_id module
                                        <$> issues) = issues).
  { intros user. rewrite <- list_fmap_compose.
    by rewrite <- (list_fmap_id issues) at 2. }
  destruct (matching issues (fetch issues t)) as [|o rest] eqn:Hm.
  - cbn. split; [by right|]. split; [|by rewrite length_fmap, Hnew].
    intros (i & Hi & Hcan & o & Ho & Hio). exfalso.
    assert (Hsel : o ∈ matching issues (fetch issues t)).
    { apply list_elem_of_filter. split; [unfold str; by rewrite Hio|].
      apply fetch_elem. split; [done|]. exists i. split; [done|].
      by rewrite Hio. }
    rewrite Hm in Hsel. by apply elem_of_nil in Hsel.
  - destruct (matching_elem _ _ _ _ Hm) as [Hin Ho].
    apply fetch_elem in Ho as [Ho (i & Hi & Hpy)].
    assert (Hto : to_create
              (if decide (ModuleIssue.module_id o = module_id)
               then mkPlan [] [] []
               else mkPlan [] [ModuleIssue.set_module_id module_id o]
                           [Delta.mk (ModuleIssue.module_id o) module_id
                                     (ModuleIssue.issue_id o)]) = [])
      by (by case_decide).
    split; [by left|]. split; [done|]. split.
    + intros Hnone. destruct (Hnone i Hi).
      exists (ModuleIssue.issue_id o). split; [done|]. by exists o.
    + intros Hnone. destruct (Hnone _ Hin). by exists o.
Qed.

(** Both sides of C9 at work: [B] is linked, so [C] is not created; with an
    empty link table both elements of [[C; C]] are created. *)
Lemma create_and_update_plans_exclusive_witness :
  (∃ i, i ∈ ["B"; "C"] ∧ canonical i ∧ has_link [link 1 "B" "M1"] i)
  ∧ to_create (ModuleIssueViewSet.plan (bulk_add ["B"; "C"]) "P" "M2" M2
                 ["B"; "C"] (fetch ["B"; "C"] [link 1 "B" "M1"])) = []
  ∧ (∀ i, i ∈ ["C"; "C"] → ¬ issue_has_link [] i)
  ∧ ModuleIssue.issue_id <$>
      to_create (ModuleIssueViewSet.plan (bulk_add ["C"; "C"]) "P" "M2" M2
                   ["C"; "C"] (fetch ["C"; "C"] [])) = ["C"; "C"].
Proof.
  assert (H1 : ∃ i, i ∈ ["B"; "C"] ∧ canonical i
                    ∧ has_link [link 1 "B" "M1"] i).
  { exists "B". split; [by left|]. split; [by vm_compute|].
    exists (link 1 "B" "M1"). split; [by left|done]. }
  assert (H2 : ∀ i, i ∈ ["C"; "C"] → ¬ issue_has_link [] i).
  { intros i _ (u & _ & o & Ho & _). by apply elem_of_nil in Ho. }
  split; [exact H1|]. split.
  - exact (proj1 (proj2 (create_and_update_plans_exclusive
             (bulk_add ["B"; "C"]) "P" "M2" M2 ["B"; "C"] [link 1 "B" "M1"])) H1).
  - split; [exact H2|].
    exact (proj1 (proj2 (proj2 (proj1 (proj2 (proj2
             (create_and_update_plans_exclusive
                (bulk_add ["C"; "C"]) "P" "M2" M2 ["C"; "C"] []))) H2)))).
Defined.

(** C9 as stated fails: the request [[b]] names issue [B], which has a
    link, in a spelling that is not the canonical one.  Line 154 fetches the
    link, line 164 does not find its text in the request, and a create entry
    is emitted. *)
Lemma linked_issue_in_other_spelling_is_created :
  (∃ i, i ∈ ["b"] ∧ issue_has_link [link 1 "B" "M1"] i)
  ∧ fetch ["b"] [link 1 "B" "M1"] = [link 1 "B" "M1"]
  ∧ to_create (ModuleIssueViewSet.plan (bulk_add ["b"]) "P" "M2" M2 ["b"]
                 (fetch ["b"] [link 1 "B" "M1"]))
    = [ModuleIssue.mk None "M2" "b" "P" "acme" "bob" "bob"]
  ∧ ¬ (to_create (ModuleIssueViewSet.plan (bulk_add ["b"]) "P" "M2" M2 ["b"]
                    (fetch ["b"] [link 1 "B" "M1"])) = []).
Proof.
  split.
  - exists "b". split; [by left|]. exists "B". split; [by vm_compute|].
    exists (link 1 "B" "M1"). split; [by left|done].
  - split; [by vm_compute|]. split; [by vm_compute|]. by vm_compute.
Qed.

(** ** Requests whose issues have no link yet *)

(** C3, as the code has it: when no requested issue has a link, the
    create-plan has one entry per element of the request list, so its size is
    the length of the list; that is the number of distinct requested issues
    exactly when the list has no duplicates.  The update-plan and the
    activity deltas are empty. *)
Theorem no_links_one_create_per_element `{!Collaborators}
    request project_id module_id module issues t :
  (∀ i, i ∈ issues → ¬ has_link t i) →
  let p := ModuleIssueViewSet.plan request project_id module_id module issues
                                   (fetch issues t) in
  length (to_create p) = length issues
  ∧ (length (to_create p) = length (remove_dups issues) ↔ NoDup issues)
  ∧ to_update p = [] ∧ activity p = [].
Proof.
  intros Hnone. cbn zeta. rewrite plan_no_links by done.
  cbn [to_create to_update activity]. rewrite length_fmap.
  split; [done|]. split; [|done]. split.
  - intros Heq. apply length_remove_dups_NoDup. lia.
  - intros Hnd. apply length_remove_dups_NoDup in Hnd. lia.
Qed.

Lemma no_links_one_create_per_element_witness :
  (∀ i, i ∈ ["B"; "C"] → ¬ has_link [link 1 "A" "M1"] i)
  ∧ let p := ModuleIssueViewSet.plan (bulk_add ["B"; "C"]) "P" "M2" M2
               ["B"; "C"] (fetch ["B"; "C"] [link 1 "A" "M1"]) in
    length (to_create p) = length ["B"; "C"]
    ∧ (length (to_create p) = length (remove_dups ["B"; "C"]) ↔ NoDup ["B"; "C"])
    ∧ to_update p = [] ∧ activity p = [].
Proof.
  assert (H : ∀ i, i ∈ ["B"; "C"] → ¬ has_link [link 1 "A" "M1"] i).
  { intros i Hi (o & Ho & Hio).
    apply list_elem_of_singleton in Ho. subst o. cbn in Hio. subst i.
    by apply (bool_decide_unpack (¬ "A" ∈ ["B"; "C"])). }
  split; [exact H|].
  exact (no_links_one_create_per_element
           (bulk_add ["B"; "C"]) "P" "M2" M2 ["B"; "C"] [link 1 "A" "M1"] H).
Defined.

(** C3 as stated fails: the request [[A; A]] with no link names one distinct
    issue and gets a create-plan of size two. *)
Lemma duplicate_request_two_creates :
  (∀ i, i ∈ ["A"; "A"] → ¬ has_link [] i)
  ∧ length (remove_dups ["A"; "A"]) = 1
  ∧ length (to_create (ModuleIssueViewSet.plan (bulk_add ["A"; "A"]) "P" "M2"
                         M2 ["A"; "A"] (fetch ["A"; "A"] []))) = 2
  ∧ ¬ (length (to_create (ModuleIssueViewSet.plan (bulk_add ["A"; "A"]) "P"
                            "M2" M2 ["A"; "A"] (fetch ["A"; "A"] [])))
       = length (remove_dups ["A"; "A"])).
Proof.
  split.
  - intros i _ (o & Ho & _). by apply elem_of_nil in Ho.
  - split; [by vm_compute|]. split; [by vm_compute|].
    vm_compute. discriminate.
Qed.

(** ** Duplicate issue IDs in a request *)

(** C4, as the code has it: the loop does not deduplicate.  The plan never
    holds more entries for an issue than the request list has occurrences of
    it, so an issue requested once gets at most one entry; when no requested
    issue has a link the plan holds exactly one create per occurrence, and a
    repeated issue is created repeatedly. *)
Theorem plan_entries_follow_occurrences `{!Collaborators}
    request project_id module_id module issues t i :
  let p := ModuleIssueViewSet.plan request project_id module_id module issues
                                   (fetch issues t) in
  entries_for i p ≤ occurrences i issues
  ∧ (NoDup issues → entries_for i p ≤ 1)
  ∧ ((∀ j, j ∈ issues → ¬ has_link t j) →
       entries_for i p = occurrences i issues).
Proof.
  cbn zeta.
  assert (Hle : entries_for i
                  (ModuleIssueViewSet.plan request project_id module_id module
                     issues (fetch issues t)) ≤ occurrences i issues).
  { rewrite plan_cases. unfold entries_for.
    destruct (matching issues (fetch issues t)) as [|o rest] eqn:Hm;
      cbn [to_create to_update].
    - rewrite app_nil_r. by rewrite entries_of_new.
    - destruct (matching_elem _ _ _ _ Hm) as [Hin _].
      case_decide; cbn [to_create to_update app]; [cbn; lia|].
      destruct (decide (ModuleIssue.issue_id o = i)) as [Hoi|Hoi].
      + rewrite filter_cons_True by done. cbn.
        apply occurrences_elem_of. by rewrite <- Hoi.
      + rewrite filter_cons_False by done. cbn. lia. }
  split; [exact Hle|]. split.
  - intros Hnd. pose proof (occurrences_NoDup i issues Hnd). lia.
  - intros Hnone. rewrite plan_no_links by done.
    unfold entries_for. cbn [to_create to_update].
    rewrite app_nil_r. apply entries_of_new.
Qed.

Lemma plan_entries_follow_occurrences_witness :
  NoDup ["B"; "C"]
  ∧ (∀ j, j ∈ ["B"; "C"] → ¬ has_link [] j)
  ∧ entries_for "B" (ModuleIssueViewSet.plan (bulk_add ["B"; "C"]) "P" "M2" M2
                       ["B"; "C"] (fetch ["B"; "C"] [])) ≤ 1
  ∧ entries_for "B" (ModuleIssueViewSet.plan (bulk_add ["B"; "C"]) "P" "M2" M2
                       ["B"; "C"] (fetch ["B"; "C"] []))
    = occurrences "B" ["B"; "C"].
Proof.
  assert (H1 : NoDup ["B"; "C"]) by (by apply (bool_decide_unpack _)).
  assert (H2 : ∀ j, j ∈ ["B"; "C"] → ¬ has_link [] j).
  { intros j _ (o & Ho & _). by apply elem_of_nil in Ho. }
  split; [exact H1|]. split; [exact H2|]. split.
  - exact (proj1 (proj2 (plan_entries_follow_occurrences
             (bulk_add ["B"; "C"]) "P" "M2" M2 ["B"; "C"] [] "B")) H1).
  - exact (proj2 (proj2 (plan_entries_follow_occurrences
             (bulk_add ["B"; "C"]) "P" "M2" M2 ["B"; "C"] [] "B")) H2).
Defined.

(** C4 as stated fails: the request [[A; A]] with no link puts two create
    entries for [A] in the plan. *)
Lemma duplicate_request_duplicate_creates :
  entries_for "A" (ModuleIssueViewSet.plan (bulk_add ["A"; "A"]) "P" "M2" M2
                     ["A"; "A"] (fetch ["A"; "A"] [])) = 2
  ∧ ¬ (entries_for "A" (ModuleIssueViewSet.plan (bulk_add ["A"; "A"]) "P" "M2"
                          M2 ["A"; "A"] (fetch ["A"; "A"] [])) ≤ 1)
  ∧ to_create (ModuleIssueViewSet.plan (bulk_add ["A"; "A"]) "P" "M2" M2
                 ["A"; "A"] (fetch ["A"; "A"] []))
    = [ModuleIssue.mk None "M2" "A" "P" "acme" "bob" "bob";
       ModuleIssue.mk None "M2" "A" "P" "acme" "bob" "bob"].
Proof.
  split; [by vm_compute|]. split; [|by vm_compute].
  assert (E : entries_for "A" (ModuleIssueViewSet.plan (bulk_add ["A"; "A"])
                "P" "M2" M2 ["A"; "A"] (fetch ["A"; "A"] [])) = 2)
    by (by vm_compute).
  rewrite E. lia.
Qed.

(** ** Issues that are already in the target module *)

(** C5, as the code has it: when every requested text is the canonical text
    of an issue that is linked to the target module (and, as the data model
    has it, an issue is in at most one module), the plan has no create, no
    update and no activity delta; applying it leaves the links as they are,
    and the plan of a second run is empty again. *)
Theorem already_in_target_nothing_to_do `{!Collaborators}
    request project_id module_id module issues t :
  (∀ i, i ∈ issues → canonical i ∧ linked_to t i module_id) →
  one_module_per_issue t →
  let p := ModuleIssueViewSet.plan request project_id module_id module issues
                                   (fetch issues t) in
  p = mkPlan [] [] []
  ∧ apply_plan p t = t
  ∧ ModuleIssueViewSet.plan request project_id module_id module issues
                            (fetch issues (apply_plan p t)) = mkPlan [] [] [].
Proof.
  intros Hall Hinv. cbn zeta.
  assert (Hcan : ∀ i, i ∈ issues → canonical i) by (intros i Hi; by apply Hall).
  assert (Hempty : ModuleIssueViewSet.plan request project_id module_id module
                     issues (fetch issues t) = mkPlan [] [] []).
  { rewrite plan_cases.
    destruct (fetch_canonical issues t Hcan) as [Hfetch ->].
    destruct (fetch issues t) as [|o rest] eqn:Hf.
    - destruct issues as [|i l]; [done|]. exfalso.
      destruct (Hall i) as (_ & o & Ho & Hio & _); [by left|].
      assert (Hsel : o ∈ filter (λ o, ModuleIssue.issue_id o ∈ i :: l) t).
      { apply list_elem_of_filter. split; [rewrite Hio; by left|done]. }
      rewrite <- Hfetch in Hsel. by apply elem_of_nil in Hsel.
    - assert (Ho : o ∈ filter (λ o, ModuleIssue.issue_id o ∈ issues) t)
        by (rewrite <- Hfetch; by left).
      apply list_elem_of_filter in Ho as [Hin Ho].
      destruct (Hall _ Hin) as (_ & o' & Ho' & Hio & Hmod).
      rewrite decide_True; [done|].
      rewrite <- Hmod. apply Hinv; done. }
  rewrite Hempty. split; [done|]. split; [done|].
  change (apply_plan (mkPlan [] [] []) t) with t. exact Hempty.
Qed.

Lemma already_in_target_nothing_to_do_witness :
  (∀ i, i ∈ ["A"; "B"] →
     canonical i ∧ linked_to [link 1 "A" "M2"; link 2 "B" "M2"] i "M2")
  ∧ one_module_per_issue [link 1 "A" "M2"; link 2 "B" "M2"]
  ∧ ModuleIssueViewSet.plan (bulk_add ["A"; "B"]) "P" "M2" M2 ["A"; "B"]
      (fetch ["A"; "B"] [link 1 "A" "M2"; link 2 "B" "M2"]) = mkPlan [] [] [].
Proof.
  assert (H1 : ∀ i, i ∈ ["A"; "B"] →
                 canonical i
                 ∧ linked_to [link 1 "A" "M2"; link 2 "B" "M2"] i "M2").
  { intros i Hi. apply elem_of_cons in Hi as [->|Hi].
    - split; [by vm_compute|].
      exists (link 1 "A" "M2"). split; [by left|done].
    - apply list_elem_of_singleton in Hi as ->. split; [by vm_compute|].
      exists (link 2 "B" "M2"). split; [by right; left|done]. }
  assert (H2 : one_module_per_issue [link 1 "A" "M2"; link 2 "B" "M2"]).
  { intros o o' Ho Ho' _.
    apply elem_of_cons in Ho as [->|Ho];
      [|apply list_elem_of_singleton in Ho as ->];
      (apply elem_of_cons in Ho' as [->|Ho'];
        [|apply list_elem_of_singleton in Ho' as ->]); done. }
  split; [exact H1|]. split; [exact H2|].
  exact (proj1 (already_in_target_nothing_to_do
                  (bulk_add ["A"; "B"]) "P" "M2" M2 ["A"; "B"]
                  [link 1 "A" "M2"; link 2 "B" "M2"] H1 H2)).
Defined.

(** C5 as stated fails: issue [B] is linked to the target module [M2] and
    the request names it as [b].  The link is fetched, its canonical text is
    not among the request texts, and the plan holds a create entry. *)
Lemma issue_in_target_in_other_spelling_is_created :
  (∀ i, i ∈ ["b"] → issue_linked_to [link 1 "B" "M2"] i "M2")
  ∧ one_module_per_issue [link 1 "B" "M2"]
  ∧ ModuleIssueViewSet.plan (bulk_add ["b"]) "P" "M2" M2 ["b"]
      (fetch ["b"] [link 1 "B" "M2"])
    = mkPlan [ModuleIssue.mk None "M2" "b" "P" "acme" "bob" "bob"] [] []
  ∧ ¬ (to_create (ModuleIssueViewSet.plan (bulk_add ["b"]) "P" "M2" M2 ["b"]
                    (fetch ["b"] [link 1 "B" "M2"])) = []).
Proof.
  split.
  - intros i Hi. apply list_elem_of_singleton in Hi as ->.
    exists "B". split; [by vm_compute|].
    exists (link 1 "B" "M2"). split; [by left|done].
  - split.
    + intros o o' Ho Ho' _.
      apply list_elem_of_singleton in Ho as ->.
      by apply list_elem_of_singleton in Ho' as ->.
    + split; by vm_compute.
Qed.

(** ** The bulk-add view, run on a world *)

Lemma client_error_400 : is_client_error HTTP_400_BAD_REQUEST.
Proof. unfold is_client_error, HTTP_400_BAD_REQUEST. lia. Qed.

Lemma client_error_410 : is_client_error HTTP_410_GONE.
Proof. unfold is_client_error, HTTP_410_GONE. lia. Qed.

Lemma filter_not_Exists {A} (P : A → Prop) `{∀ x, Decision (P x)} (l : list A) :
  ¬ Exists P l → filter P l = [].
Proof.
  intros Hno. induction l as [|x l IH]; [done|].
  rewrite filter_cons_False.
  - apply IH. intros Hex. apply Hno. by right.
  - intros Hx. apply Hno. by left.
Qed.

(** An empty [issues] list is answered before anything else happens. *)
Lemma create_without_issues `{!Collaborators} request slug project_id module_id w :
  ModuleIssueViewSet.requested_issues request = [] →
  ModuleIssueViewSet.create request slug project_id module_id w
  = (Returns issues_required, w).
Proof.
  intros Hnil. unfold ModuleIssueViewSet.create, try_except.
  by rewrite Hnil.
Qed.

(** A missing module is answered after the lookup and before any query or
    write on links. *)
Lemma create_without_module `{!Collaborators} request slug project_id module_id w :
  ModuleIssueViewSet.requested_issues request ≠ [] →
  ¬ module_exists (db w) slug project_id module_id →
  ModuleIssueViewSet.create request slug project_id module_id w
  = (Returns module_does_not_exist,
     mkWorld (db w) (trace w ++ [Module_get slug project_id module_id])).
Proof.
  intros Hne Hmiss. unfold ModuleIssueViewSet.create, try_except.
  rewrite decide_False by (by intros ?%nil_length_inv).
  unfold Module_objects_get, mbind, View_bind, emit, read_db. cbn.
  by rewrite (filter_not_Exists _ _ Hmiss).
Qed.

(** ** Error responses of the bulk-add view *)

(** C7: when the target module does not exist, and when the request's
    [issues] list is empty, the view answers a client-error status with an
    error message, the database is unchanged and no call that creates or
    updates links is made. *)
Theorem bulk_add_errors_change_nothing `{!Collaborators} request slug project_id module_id w :
  ¬ module_exists (db w) slug project_id module_id
  ∨ ModuleIssueViewSet.requested_issues request = [] →
  ∃ resp w' message calls,
    ModuleIssueViewSet.create request slug project_id module_id w
      = (Returns resp, w')
    ∧ is_client_error (status resp)
    ∧ data resp = Dict [("error", message)]
    ∧ db w' = db w
    ∧ trace w' = trace w ++ calls
    ∧ Forall (λ ev, is_link_write ev = false) calls.
Proof.
  intros Herr.
  destruct (decide (ModuleIssueViewSet.requested_issues request = []))
    as [Hnil|Hne].
  - exists issues_required, w, "Issues are required", [].
    rewrite (create_without_issues _ _ _ _ _ Hnil), app_nil_r.
    split; [done|]. split; [exact client_error_400|]. by repeat split.
  - destruct Herr as [Hmiss|Hnil]; [|done].
    exists module_does_not_exist,
      (mkWorld (db w) (trace w ++ [Module_get slug project_id module_id])),
      "Module Does not exists", [Module_get slug project_id module_id].
    rewrite (create_without_module _ _ _ _ _ Hne Hmiss).
    split; [done|]. split; [exact client_error_400|]. repeat split.
    by repeat constructor.
Qed.

Lemma bulk_add_errors_change_nothing_witness :
  ¬ module_exists (database_with [link 1 "A" "M1"]) "acme" "P" "M3"
  ∧ ∃ resp w' message calls,
      ModuleIssueViewSet.create (bulk_add ["A"; "B"]) "acme" "P" "M3"
        (mkWorld (database_with [link 1 "A" "M1"]) []) = (Returns resp, w')
      ∧ is_client_error (status resp)
      ∧ data resp = Dict [("error", message)]
      ∧ db w' = database_with [link 1 "A" "M1"]
      ∧ trace w' = [] ++ calls
      ∧ Forall (λ ev, is_link_write ev = false) calls.
Proof.
  assert (H : ¬ module_exists (database_with [link 1 "A" "M1"]) "acme" "P" "M3")
    by (by apply (bool_decide_unpack _)).
  split; [exact H|].
  exact (bulk_add_errors_change_nothing (bulk_add ["A"; "B"]) "acme" "P" "M3"
           (mkWorld (database_with [link 1 "A" "M1"]) []) (or_introl H)).
Defined.

(** C10: the emptiness check comes before the module lookup.  A request
    whose [issues] list is empty gets the empty-issues client error whether
    or not the target module exists, and the world is left exactly as it
    was: no call at all is made, so no module is read and no link written. *)
Theorem empty_issues_answered_before_lookup `{!Collaborators}
    request slug project_id module_id w :
  ModuleIssueViewSet.requested_issues request = [] →
  ∃ w',
    ModuleIssueViewSet.create request slug project_id module_id w
      = (Returns issues_required, w')
    ∧ is_client_error (status issues_required)
    ∧ w' = w
    ∧ Forall (λ ev, is_module_read ev = false ∧ is_link_write ev = false)
             (drop (length (trace w)) (trace w')).
Proof.
  intros Hnil. exists w.
  rewrite (create_without_issues _ _ _ _ _ Hnil).
  split; [done|]. split; [exact client_error_400|]. split; [done|].
  rewrite drop_all. constructor.
Qed.

Lemma empty_issues_answered_before_lookup_witness :
  ModuleIssueViewSet.requested_issues (bulk_add []) = []
  ∧ ¬ module_exists (database_with []) "acme" "P" "M3"
  ∧ ∃ w',
      ModuleIssueViewSet.create (bulk_add []) "acme" "P" "M3"
        (mkWorld (database_with []) []) = (Returns issues_required, w')
      ∧ is_client_error (status issues_required)
      ∧ w' = mkWorld (database_with []) []
      ∧ Forall (λ ev, is_module_read ev = false ∧ is_link_write ev = false)
               (drop (length (trace (mkWorld (database_with []) [])))
                     (trace w')).
Proof.
  assert (H : ModuleIssueViewSet.requested_issues (bulk_add []) = [])
    by (by vm_compute).
  split; [exact H|]. split; [by apply (bool_decide_unpack _)|].
  exact (empty_issues_answered_before_lookup (bulk_add []) "acme" "P" "M3"
           (mkWorld (database_with []) []) H).
Defined.

(** ** The name conflict of the module-create view *)

(** C8: a module-create request for a name the project already has, where
    the serializer accepts the fields and the engine's error text says
    ["already exists"], gets the 410 response, whose status is a client
    error and whose status and body both differ from the generic failure
    response; nothing is written. *)
Theorem name_conflict_is_not_generic_failure
    is_valid errors new_pk unique_violation request slug project_id w :
  let name := default "" (ModuleViewSet.request_data request !! "name") in
  filter (λ p : UUID * string, p.2 = slug ∧ p.1 = project_id)
         (project_table (db w)) = [(project_id, slug)] →
  is_valid (ModuleViewSet.request_data request) = true →
  Exists (λ m, Module_.name m = name ∧ Module_.project_id m = project_id)
         (module_table (db w)) →
  contains "already exists" (unique_violation name project_id) = true →
  ∃ w',
    ModuleViewSet.create is_valid errors new_pk unique_violation
                         request slug project_id w
      = (Returns (Some name_taken), w')
    ∧ is_client_error (status name_taken)
    ∧ status name_taken ≠ status generic_failure
    ∧ data name_taken ≠ data generic_failure
    ∧ db w' = db w.
Proof.
  intros name Hproject Hvalid Htaken Htext.
  unfold ModuleViewSet.create, try_except, ModuleViewSet.Project_objects_get,
    ModuleViewSet.serializer_save, mbind, View_bind, emit, read_db.
  cbn. rewrite Hproject, Hvalid. cbn. fold name.
  rewrite decide_True by exact Htaken. cbn. rewrite Htext.
  eexists. split; [reflexivity|]. split; [exact client_error_410|].
  by repeat split.
Qed.

Lemma name_conflict_is_not_generic_failure_witness :
  let request := ModuleViewSet.mkRequest {["name" := "Backlog"]} in
  let w := mkWorld (database_with []) [] in
  ∃ w',
    ModuleViewSet.create (λ _, true) (λ _, []) (λ _, "M3")
                         postgres_unique_violation request "acme" "P" w
      = (Returns (Some name_taken), w')
    ∧ is_client_error (status name_taken)
    ∧ status name_taken ≠ status generic_failure
    ∧ data name_taken ≠ data generic_failure
    ∧ db w' = db w.
Proof.
  apply (name_conflict_is_not_generic_failure (λ _, true) (λ _, []) (λ _, "M3")
           postgres_unique_violation
           (ModuleViewSet.mkRequest {["name" := "Backlog"]}) "acme" "P"
           (mkWorld (database_with []) [])).
  - by vm_compute.
  - reflexivity.
  - by apply (bool_decide_unpack _).
  - by vm_compute.
Defined.

(** ** The scenarios of the specification, run on the code *)

(** C1: module [M1] holds issues [A] and [B]; the request adds [[B; C]] to
    [M2].  The view moves [B] and records its delta, but the list handed to
    [bulk_create] is empty: no link is planned for [C]. *)
Theorem scenario_move_B_create_C :
  ModuleIssueViewSet.create (bulk_add ["B"; "C"]) "acme" "P" "M2"
    (mkWorld (database_with [link 1 "A" "M1"; link 2 "B" "M1"]) [])
  = (Returns (mkResponse (ModuleIssueList [link 2 "B" "M2"]) HTTP_200_OK),
     mkWorld (database_with [link 1 "A" "M1"; link 2 "B" "M2"])
       [Module_get "acme" "P" "M2";
        ModuleIssue_filter ["B"; "C"];
        ModuleIssue_bulk_create [];
        ModuleIssue_bulk_update [link 2 "B" "M2"];
        issue_activity_delay
          (mkActivityTask ["B"; "C"] "bob" "None" "P"
                          [Delta.mk "M1" "M2" "B"] []);
        ModuleIssue_list "acme" "P" "M2" "bob"])
  ∧ ModuleIssueViewSet.plan (bulk_add ["B"; "C"]) "P" "M2" M2 ["B"; "C"]
      (fetch ["B"; "C"] [link 1 "A" "M1"; link 2 "B" "M1"])
    = mkPlan [] [link 2 "B" "M2"] [Delta.mk "M1" "M2" "B"].
Proof. split; by vm_compute. Qed.

(** C2: issues [B] and [C] are both in [M1]; the request adds [[B; C]] to
    [M2].  Only the first fetched link is moved: one update and one delta
    for two issues that are linked to another module. *)
Theorem scenario_move_B_and_C :
  (∀ i, i ∈ ["B"; "C"] → linked_to [link 1 "B" "M1"; link 2 "C" "M1"] i "M1")
  ∧ ModuleIssueViewSet.plan (bulk_add ["B"; "C"]) "P" "M2" M2 ["B"; "C"]
      (fetch ["B"; "C"] [link 1 "B" "M1"; link 2 "C" "M1"])
    = mkPlan [] [link 1 "B" "M2"] [Delta.mk "M1" "M2" "B"]
  ∧ snd (ModuleIssueViewSet.create (bulk_add ["B"; "C"]) "acme" "P" "M2"
           (mkWorld (database_with [link 1 "B" "M1"; link 2 "C" "M1"]) []))
    = mkWorld (database_with [link 1 "B" "M2"; link 2 "C" "M1"])
        [Module_get "acme" "P" "M2";
         ModuleIssue_filter ["B"; "C"];
         ModuleIssue_bulk_create [];
         ModuleIssue_bulk_update [link 1 "B" "M2"];
         issue_activity_delay
           (mkActivityTask ["B"; "C"] "bob" "None" "P"
                           [Delta.mk "M1" "M2" "B"] []);
         ModuleIssue_list "acme" "P" "M2" "bob"].
Proof.
  split; [|split; by vm_compute].
  intros i Hi. apply elem_of_cons in Hi as [->|Hi].
  - exists (link 1 "B" "M1"). split; [by left|done].
  - apply list_elem_of_singleton in Hi as ->.
    exists (link 2 "C" "M1"). split; [by right; left|done].
Qed.

(** C6: after the view has run, a requested issue can be without any link
    (issue [C] of the first scenario) or still in its old module (issue [C]
    of the second one). *)
Theorem scenarios_leave_C_outside_target :
  (let t' := moduleissue_table (db (snd
       (ModuleIssueViewSet.create (bulk_add ["B"; "C"]) "acme" "P" "M2"
          (mkWorld (database_with [link 1 "A" "M1"; link 2 "B" "M1"]) [])))) in
   t' = [link 1 "A" "M1"; link 2 "B" "M2"] ∧ ¬ has_link t' "C")
  ∧ (let t' := moduleissue_table (db (snd
       (ModuleIssueViewSet.create (bulk_add ["B"; "C"]) "acme" "P" "M2"
          (mkWorld (database_with [link 1 "B" "M1"; link 2 "C" "M1"]) [])))) in
     t' = [link 1 "B" "M2"; link 2 "C" "M1"]
     ∧ linked_to t' "C" "M1" ∧ ¬ linked_to t' "C" "M2").
Proof.
  split; cbn zeta.
  - assert (E : moduleissue_table (db (snd
       (ModuleIssueViewSet.create (bulk_add ["B"; "C"]) "acme" "P" "M2"
          (mkWorld (database_with [link 1 "A" "M1"; link 2 "B" "M1"]) []))))
       = [link 1 "A" "M1"; link 2 "B" "M2"]) by (by vm_compute).
    rewrite E. split; [done|].
    intros (o & Ho & Hio).
    apply elem_of_cons in Ho as [->|Ho]; [done|].
    by apply list_elem_of_singleton in Ho as ->.
  - assert (E : moduleissue_table (db (snd
       (ModuleIssueViewSet.create (bulk_add ["B"; "C"]) "acme" "P" "M2"
          (mkWorld (database_with [link 1 "B" "M1"; link 2 "C" "M1"]) []))))
       = [link 1 "B" "M2"; link 2 "C" "M1"]) by (by vm_compute).
    rewrite E. split; [done|]. split.
    + exists (link 2 "C" "M1"). split; [by right; left|done].
    + intros (o & Ho & Hio & Hmo).
      apply elem_of_cons in Ho as [->|Ho]; [done|].
      by apply list_elem_of_singleton in Ho as ->.
Qed.

(** * Further properties of the two views *)

(** ** What a plan can contain *)


(** The fields of the objects of a create-plan. *)
Lemma created_links_carry_the_request_texts_aux
    request project_id module_id module (issues : list string) fetched :
  Forall (λ o, ModuleIssue.module_id o = Module_.pk module
               ∧ ModuleIssue.project_id o = project_id
               ∧ ModuleIssue.workspace o = Module_.workspace module
               ∧ ModuleIssue.created_by o
                 = ModuleIssueViewSet.request_user request
               ∧ ModuleIssue.updated_by o
                 = ModuleIssueViewSet.request_user request
               ∧ ModuleIssue.issue_id o ∈ issues)
         (to_create (ModuleIssueViewSet.plan request project_id module_id
                       module issues fetched))
  ∧ ModuleIssue.issue_id <$>
      to_create (ModuleIssueViewSet.plan request project_id module_id
                   module issues fetched)
    = (if decide (to_create (ModuleIssueViewSet.plan request project_id
                               module_id module issues fetched) = [])
       then [] else issues).
Proof.
  rewrite plan_cases.
  destruct (matching issues fetched) as [|o rest] eqn:Hm.
  - cbn [to_create]. split.
    + apply Forall_fmap, Forall_forall. intros i Hi. cbn. by repeat split.
    + rewrite <- list_fmap_compose.
      case_decide as Hnil.
      * apply fmap_nil_inv in Hnil. by rewrite Hnil.
      * by rewrite <- (list_fmap_id issues) at 2.
  - case_decide; cbn; by split; [constructor|].
Qed.

(** X2: every object handed to [bulk_create] is a link to the fetched
    module, in the project of the URL and the module's workspace, created
    and updated by the requesting user.  Its issue is a request text as it
    was sent, not its canonical form, and no fetched link has that text as
    the canonical text of its issue. *)
Theorem created_links_carry_the_request_texts `{!Collaborators}
    request project_id module_id module issues t :
  let p := ModuleIssueViewSet.plan request project_id module_id module issues
                                   (fetch issues t) in
  Forall (λ o, ModuleIssue.module_id o = Module_.pk module
               ∧ ModuleIssue.project_id o = project_id
               ∧ ModuleIssue.workspace o = Module_.workspace module
               ∧ ModuleIssue.created_by o
                 = ModuleIssueViewSet.request_user request
               ∧ ModuleIssue.updated_by o
                 = ModuleIssueViewSet.request_user request
               ∧ ModuleIssue.issue_id o ∈ issues
               ∧ ¬ has_link (fetch issues t) (ModuleIssue.issue_id o))
         (to_create p)
  ∧ ModuleIssue.issue_id <$> to_create p
    = (if decide (to_create p = []) then [] else issues).
Proof.
  cbn zeta. rewrite plan_cases.
  destruct (matching issues (fetch issues t)) as [|o rest] eqn:Hm.
  - cbn [to_create]. split.
    + apply Forall_fmap, Forall_forall.
      intros i Hi. cbn. repeat split; [done|].
      intros (x & Hx & Hxi).
      assert (Hsel : x ∈ matching issues (fetch issues t)).
      { apply list_elem_of_filter. split; [|done]. unfold str. by rewrite Hxi. }
      rewrite Hm in Hsel. by apply elem_of_nil in Hsel.
    + rewrite <- list_fmap_compose.
      case_decide as Hnil.
      * apply fmap_nil_inv in Hnil. by rewrite Hnil.
      * by rewrite <- (list_fmap_id issues) at 2.
  - case_decide; cbn; by split; [constructor|].
Qed.

(** X3: which link is moved, and what is logged, depends on the request
    only through the set of its issue IDs: two request lists with the same
    elements, in any order and multiplicity, give the same update-plan and
    the same activity deltas. *)
Theorem moves_ignore_request_order `{!Collaborators}
    request project_id module_id module issues issues' t :
  (∀ i, i ∈ issues ↔ i ∈ issues') →
  let p := ModuleIssueViewSet.plan request project_id module_id module issues
                                   (fetch issues t) in
  let p' := ModuleIssueViewSet.plan request project_id module_id module issues'
                                    (fetch issues' t) in
  to_update p = to_update p' ∧ activity p = activity p'.
Proof.
  intros Hsame. cbn zeta.
  assert (Hfetch : fetch issues t = fetch issues' t).
  { unfold fetch. apply list_filter_iff. intros x.
    rewrite !list_elem_of_omap. split; intros (i & Hi & Hpy); exists i;
      (split; [by apply Hsame|done]). }
  assert (Hmatch : matching issues (fetch issues t)
                   = matching issues' (fetch issues' t)).
  { rewrite <- Hfetch. unfold matching. apply list_filter_iff.
    intros x. apply Hsame. }
  rewrite !plan_cases, <- Hmatch.
  destruct (matching issues (fetch issues t)) as [|o rest]; [done|].
  by case_decide.
Qed.

Lemma moves_ignore_request_order_witness :
  (∀ i, i ∈ ["B"; "C"] ↔ i ∈ ["C"; "B"; "C"])
  ∧ to_update (ModuleIssueViewSet.plan (bulk_add ["B"; "C"]) "P" "M2" M2
                 ["B"; "C"] (fetch ["B"; "C"] [link 1 "C" "M1"; link 2 "B" "M1"]))
    = to_update (ModuleIssueViewSet.plan (bulk_add ["B"; "C"]) "P" "M2" M2
                 ["C"; "B"; "C"]
                 (fetch ["C"; "B"; "C"] [link 1 "C" "M1"; link 2 "B" "M1"])).
Proof.
  assert (H : ∀ i, i ∈ ["B"; "C"] ↔ i ∈ ["C"; "B"; "C"]).
  { intros i. rewrite !elem_of_cons, !elem_of_nil. tauto. }
  split; [exact H|].
  exact (proj1 (moves_ignore_request_order (bulk_add ["B"; "C"]) "P" "M2" M2
                  ["B"; "C"] ["C"; "B"; "C"]
                  [link 1 "C" "M1"; link 2 "B" "M1"] H)).
Defined.

(** ** What the two batched writes do to the link table *)

Lemma NoDup_fmap_elem_inj {A B} (f : A → B) (l : list A) x y :
  NoDup (f <$> l) → x ∈ l → y ∈ l → f x = f y → x = y.
Proof.
  induction l as [|a l IH]; intros Hnd Hx Hy Hxy.
  - by apply elem_of_nil in Hx.
  - cbn [fmap list_fmap] in Hnd. apply NoDup_cons in Hnd as [Ha Hnd].
    apply elem_of_cons in Hx as [->|Hx]; apply elem_of_cons in Hy as [->|Hy].
    + done.
    + destruct Ha. rewrite Hxy. by apply list_elem_of_fmap_2.
    + destruct Ha. rewrite <- Hxy. by apply list_elem_of_fmap_2.
    + by apply IH.
Qed.

Lemma update_row_issue_id o x :
  ModuleIssue.issue_id (update_row o x) = ModuleIssue.issue_id x.
Proof. unfold update_row. by case_decide. Qed.

Lemma update_row_pk o x : ModuleIssue.pk (update_row o x) = ModuleIssue.pk x.
Proof. unfold update_row. by case_decide. Qed.

(** A batched update rewrites each row on its own. *)
Lemma bulk_update_rows_fmap objs t :
  bulk_update_rows objs t
  = (λ x, foldl (λ y o, update_row o y) x objs) <$> t.
Proof.
  unfold bulk_update_rows. revert t.
  induction objs as [|o objs IH]; intros t; cbn [foldl].
  - by rewrite list_fmap_id.
  - by rewrite IH, <- list_fmap_compose.
Qed.

Lemma update_rows_keep_identity objs x :
  ModuleIssue.issue_id (foldl (λ y o, update_row o y) x objs)
    = ModuleIssue.issue_id x
  ∧ ModuleIssue.pk (foldl (λ y o, update_row o y) x objs) = ModuleIssue.pk x.
Proof.
  revert x. induction objs as [|o objs IH]; intros x; cbn [foldl]; [done|].
  destruct (IH (update_row o x)) as [-> ->].
  by rewrite update_row_issue_id, update_row_pk.
Qed.

Section InsertFacts.
Context `{!Collaborators}.

(** A batched insert only appends, and a row it appends is one of the
    objects, under the UUID its text denotes. *)
Lemma bulk_create_rows_appends objs t :
  ∃ added,
    bulk_create_rows objs t = t ++ added
    ∧ Forall (λ row, ∃ o, o ∈ objs
                ∧ to_python (ModuleIssue.issue_id o)
                  = Some (ModuleIssue.issue_id row)
                ∧ ModuleIssue.module_id row = ModuleIssue.module_id o) added.
Proof.
  unfold bulk_create_rows. revert t.
  induction objs as [|o objs IH]; intros t; cbn [foldl].
  - exists []. by rewrite app_nil_r.
  - destruct (IH (insert_ignore_conflicts t o)) as (added & -> & Hadded).
    assert (Hlater : Forall (λ row, ∃ o', o' ∈ o :: objs
                       ∧ to_python (ModuleIssue.issue_id o')
                         = Some (ModuleIssue.issue_id row)
                       ∧ ModuleIssue.module_id row = ModuleIssue.module_id o')
                     added).
    { eapply Forall_impl; [exact Hadded|].
      intros row (o' & Ho' & Hrow). exists o'. split; [by right|done]. }
    unfold insert_ignore_conflicts.
    destruct (to_python (ModuleIssue.issue_id o)) as [u|] eqn:Hu;
      [case_decide|].
    + by exists added.
    + eexists. rewrite <- app_assoc. split; [done|].
      constructor; [|done]. exists o. split; [by left|]. by split.
    + by exists added.
Qed.

Lemma bulk_create_rows_keeps objs t x :
  x ∈ t → x ∈ bulk_create_rows objs t.
Proof.
  intros Hx. destruct (bulk_create_rows_appends objs t) as (added & -> & _).
  apply elem_of_app. by left.
Qed.

(** After a batched insert every object's issue has a link. *)
Lemma bulk_create_rows_covers objs t o u :
  o ∈ objs → to_python (ModuleIssue.issue_id o) = Some u →
  u ∈ ModuleIssue.issue_id <$> bulk_create_rows objs t.
Proof.
  unfold bulk_create_rows. revert t.
  induction objs as [|o' objs IH]; intros t Ho Hu.
  - by apply elem_of_nil in Ho.
  - cbn [foldl]. apply elem_of_cons in Ho as [<-|Ho]; [|by apply IH].
    fold (bulk_create_rows objs (insert_ignore_conflicts t o)).
    assert (Hnow : u ∈ ModuleIssue.issue_id <$> insert_ignore_conflicts t o).
    { unfold insert_ignore_conflicts. rewrite Hu. case_decide; [done|].
      rewrite fmap_app. apply elem_of_app. right. by left. }
    apply list_elem_of_fmap in Hnow as (x & -> & Hx).
    by apply list_elem_of_fmap_2, bulk_create_rows_keeps.
Qed.

(** Objects whose issues all have a link are all skipped. *)
Lemma bulk_create_rows_all_linked objs t :
  (∀ o u, o ∈ objs → to_python (ModuleIssue.issue_id o) = Some u →
          u ∈ ModuleIssue.issue_id <$> t) →
  bulk_create_rows objs t = t.
Proof.
  unfold bulk_create_rows.
  induction objs as [|o objs IH]; intros Hall; [done|].
  cbn [foldl].
  assert (Hsame : insert_ignore_conflicts t o = t).
  { unfold insert_ignore_conflicts.
    destruct (to_python (ModuleIssue.issue_id o)) as [u|] eqn:Hu; [|done].
    rewrite decide_True; [done|]. apply (Hall o); [by left|done]. }
  rewrite Hsame. apply IH. intros o' u Ho'. apply Hall. by right.
Qed.

Lemma fetch_fmap (issues : list string) (f : ModuleIssue.t → ModuleIssue.t) t :
  (∀ x, ModuleIssue.issue_id (f x) = ModuleIssue.issue_id x) →
  fetch issues (f <$> t) = f <$> fetch issues t.
Proof.
  intros Hf. unfold fetch. induction t as [|x t IH]; [done|].
  cbn [fmap list_fmap].
  destruct (decide (ModuleIssue.issue_id x ∈ omap to_python issues)) as [Hx|Hx].
  - rewrite !filter_cons_True by (by rewrite ?Hf). cbn. by rewrite <- IH.
  - rewrite !filter_cons_False by (by rewrite ?Hf). exact IH.
Qed.

Lemma fetch_app (issues : list string) t t' :
  fetch issues (t ++ t') = fetch issues t ++ fetch issues t'.
Proof. unfold fetch. apply filter_app. Qed.
End InsertFacts.

Lemma matching_fmap (issues : list string) (f : ModuleIssue.t → ModuleIssue.t) t :
  (∀ x, ModuleIssue.issue_id (f x) = ModuleIssue.issue_id x) →
  matching issues (f <$> t) = f <$> matching issues t.
Proof.
  intros Hf. unfold matching, str. induction t as [|x t IH]; [done|].
  cbn [fmap list_fmap].
  destruct (decide (ModuleIssue.issue_id x ∈ issues)) as [Hx|Hx].
  - rewrite !filter_cons_True by (by rewrite ?Hf). cbn. by rewrite <- IH.
  - rewrite !filter_cons_False by (by rewrite ?Hf). exact IH.
Qed.

(** X4: with distinct keys in the link table, applying the plan changes no
    stored link other than the first fetched one whose canonical text is
    among the request texts; in particular the link of an issue that was not
    requested is never moved or removed. *)
Theorem only_the_first_fetched_link_changes `{!Collaborators}
    request project_id module_id module issues t :
  distinct_keys t →
  let p := ModuleIssueViewSet.plan request project_id module_id module issues
                                   (fetch issues t) in
  (∀ x, x ∈ t → head (matching issues (fetch issues t)) ≠ Some x →
        x ∈ apply_plan p t)
  ∧ (∀ x, x ∈ t → ModuleIssue.issue_id x ∉ issues → x ∈ apply_plan p t)
  ∧ (∀ x, x ∈ t → ModuleIssue.issue_id x ∉ omap to_python issues →
          x ∈ apply_plan p t).
Proof.
  intros Hkeys. cbn zeta.
  assert (Hfirst : ∀ x, x ∈ t →
            head (matching issues (fetch issues t)) ≠ Some x →
            x ∈ apply_plan (ModuleIssueViewSet.plan request project_id
                              module_id module issues (fetch issues t)) t).
  { intros x Hx Hhead. rewrite plan_cases.
    destruct (matching issues (fetch issues t)) as [|o rest] eqn:Hm.
    - unfold apply_plan. cbn [to_create to_update bulk_update_rows foldl].
      by apply bulk_create_rows_keeps.
    - destruct (matching_elem _ _ _ _ Hm) as [_ Ho].
      apply fetch_elem in Ho as [Ho _].
      case_decide; [done|].
      unfold apply_plan.
      cbn [to_create to_update bulk_create_rows bulk_update_rows foldl].
      apply list_elem_of_fmap. exists x. split; [|done].
      unfold update_row. rewrite decide_False; [done|].
      intros Hpk. apply Hhead. cbn. f_equal.
      by apply (NoDup_fmap_elem_inj ModuleIssue.pk t). }
  split; [exact Hfirst|]. split.
  - intros x Hx Hout. apply Hfirst; [done|].
    intros Hhead. apply head_Some in Hhead as [rest Hm].
    by destruct (matching_elem _ _ _ _ Hm).
  - intros x Hx Hout. apply Hfirst; [done|].
    intros Hhead. apply head_Some in Hhead as [rest Hm].
    destruct (matching_elem _ _ _ _ Hm) as [_ Hf].
    apply list_elem_of_filter in Hf as [Hf _]. done.
Qed.

Lemma only_the_first_fetched_link_changes_witness :
  distinct_keys [link 1 "A" "M1"; link 2 "B" "M1"]
  ∧ link 1 "A" "M1"
    ∈ apply_plan (ModuleIssueViewSet.plan (bulk_add ["B"; "C"]) "P" "M2" M2
                    ["B"; "C"]
                    (fetch ["B"; "C"] [link 1 "A" "M1"; link 2 "B" "M1"]))
                 [link 1 "A" "M1"; link 2 "B" "M1"].
Proof.
  assert (H : distinct_keys [link 1 "A" "M1"; link 2 "B" "M1"])
    by (by apply (bool_decide_unpack _)).
  split; [exact H|].
  apply (proj1 (proj2 (only_the_first_fetched_link_changes (bulk_add ["B"; "C"])
                         "P" "M2" M2 ["B"; "C"]
                         [link 1 "A" "M1"; link 2 "B" "M1"] H))).
  - by left.
  - by apply (bool_decide_unpack _).
Defined.

(** ** Applying a plan twice *)

Lemma found_module_has_the_key slug project_id module_id (ms : list Module_.t) m :
  filter (λ m, Module_.workspace m = slug ∧ Module_.project_id m = project_id
               ∧ Module_.pk m = module_id) ms = [m] →
  Module_.pk m = module_id.
Proof.
  intros Hget.
  assert (Hm : m ∈ filter (λ m, Module_.workspace m = slug
                               ∧ Module_.project_id m = project_id
                               ∧ Module_.pk m = module_id) ms)
    by (rewrite Hget; by left).
  apply list_elem_of_filter in Hm. tauto.
Qed.

(** A plan with something to update has nothing to create. *)
Lemma nothing_to_create_when_updating
    request project_id module_id module issues fetched :
  to_update (ModuleIssueViewSet.plan request project_id module_id module
               issues fetched) ≠ [] →
  to_create (ModuleIssueViewSet.plan request project_id module_id module
               issues fetched) = [].
Proof.
  rewrite plan_cases. destruct (matching issues fetched) as [|o rest]; [done|].
  by case_decide.
Qed.

Section ApplyFacts.
Context `{!Collaborators}.

(** The objects of an update-plan were fetched from the table, so they
    carry the keys of their rows. *)
Lemma to_update_saved request project_id module_id module issues t :
  all_saved t →
  Forall (λ o, is_Some (ModuleIssue.pk o))
         (to_update (ModuleIssueViewSet.plan request project_id module_id
                       module issues (fetch issues t))).
Proof.
  intros Hsaved. rewrite plan_cases.
  destruct (matching issues (fetch issues t)) as [|o rest] eqn:Hm;
    [constructor|].
  destruct (matching_elem _ _ _ _ Hm) as [_ Ho].
  apply fetch_elem in Ho as [Ho _].
  case_decide; cbn; constructor; [|constructor].
  cbn. by apply (proj1 (Forall_forall _ _) Hsaved).
Qed.

(** The texts of a create-plan are request texts. *)
Lemma to_create_texts request project_id module_id module issues fetched :
  Forall (λ i, is_Some (to_python i)) issues →
  Forall (λ o, is_Some (to_python (ModuleIssue.issue_id o)))
         (to_create (ModuleIssueViewSet.plan request project_id module_id
                       module issues fetched)).
Proof.
  intros Hparse. rewrite plan_cases.
  destruct (matching issues fetched) as [|o rest].
  - cbn [to_create]. by apply Forall_fmap.
  - case_decide; constructor.
Qed.

(** The plan computed after a plan has been applied changes nothing more:
    the first selected link is in the target module by then, or every
    create it holds meets a link the first insert left. *)
Lemma apply_plan_twice request project_id module_id module issues t :
  Module_.pk module = module_id →
  let t1 := apply_plan (ModuleIssueViewSet.plan request project_id module_id
                          module issues (fetch issues t)) t in
  apply_plan (ModuleIssueViewSet.plan request project_id module_id module
                issues (fetch issues t1)) t1 = t1.
Proof.
  intros Hpk. cbn zeta. rewrite (plan_cases _ _ _ _ _ (fetch issues t)).
  destruct (matching issues (fetch issues t)) as [|o rest] eqn:Hm.
  - (* the first run created *)
    unfold apply_plan at 2 3.
    cbn [to_create to_update bulk_update_rows foldl].
    set (news := new_ModuleIssue (ModuleIssueViewSet.request_user request)
                                 project_id module <$> issues).
    destruct (bulk_create_rows_appends news t) as (added & Ht1 & Hadded).
    rewrite plan_cases.
    destruct (matching issues (fetch issues (bulk_create_rows news t)))
      as [|o2 rest2] eqn:Hm2.
    + unfold apply_plan. cbn [to_create to_update bulk_update_rows foldl].
      fold news. apply bulk_create_rows_all_linked.
      intros o' u Ho' Hu. by apply (bulk_create_rows_covers news t o').
    + destruct (matching_elem _ _ _ _ Hm2) as [Hin2 Ho2].
      apply fetch_elem in Ho2 as [Ho2 _].
      rewrite Ht1 in Ho2. apply elem_of_app in Ho2 as [Ho2|Ho2].
      * (* an old link would have been selected by the first run *)
        exfalso.
        assert (Hsel : o2 ∈ matching issues (fetch issues t)).
        { apply list_elem_of_filter. split; [done|].
          assert (Hf : o2 ∈ fetch issues (bulk_create_rows news t)).
          { destruct (matching_elem _ _ _ _ Hm2) as [_ Hf]. exact Hf. }
          apply fetch_elem in Hf as [_ Hreq]. apply fetch_elem. by split. }
        rewrite Hm in Hsel. by apply elem_of_nil in Hsel.
      * apply (proj1 (Forall_forall _ _) Hadded) in Ho2
          as (n & Hn & _ & Hmod).
        apply list_elem_of_fmap in Hn as (j & -> & _).
        rewrite decide_True by (by rewrite Hmod). done.
  - destruct (matching_elem _ _ _ _ Hm) as [Hin Ho].
    case_decide as Hmod.
    + (* the first selected link was in the target module already *)
      change (apply_plan (mkPlan [] [] []) t) with t.
      rewrite plan_cases, Hm. by rewrite decide_True.
    + (* the first selected link was moved *)
      unfold apply_plan at 2 3.
      cbn [to_create to_update bulk_create_rows bulk_update_rows foldl].
      rewrite plan_cases, fetch_fmap, matching_fmap, Hm
        by apply update_row_issue_id.
      cbn [fmap list_fmap]. rewrite decide_True; [done|].
      unfold update_row. by rewrite decide_True.
Qed.

(** The table a plan leaves: rows appended, rows rewritten without a change
    of key or issue. *)
Lemma apply_plan_shape p t :
  ∃ (f : ModuleIssue.t → ModuleIssue.t) added,
    apply_plan p t = f <$> (t ++ added)
    ∧ ∀ x, ModuleIssue.issue_id (f x) = ModuleIssue.issue_id x
           ∧ ModuleIssue.pk (f x) = ModuleIssue.pk x.
Proof.
  unfold apply_plan.
  destruct (bulk_create_rows_appends (to_create p) t) as (added & -> & _).
  rewrite bulk_update_rows_fmap. eexists _, added. split; [done|].
  intros x. apply update_rows_keep_identity.
Qed.
End ApplyFacts.
(** ** The bulk-add view on every input *)

Lemma set_moduleissue_table_same d :
  set_moduleissue_table (moduleissue_table d) d = d.
Proof. by destruct d. Qed.

(** The outcomes of the bulk-add view.  It always ends with a response, of
    status 200 or 400.  Either both batched writes went through: then the
    link table is the plan applied, whatever happened afterwards, and the
    calls are the lookup, the query, the insert, the update and one task
    hand-over, followed by the listing or by what the failure left.  Or they
    did not: then the database is as it was, the answer is 400 and no task
    was handed over. *)
Lemma create_outcome `{!Collaborators} request slug project_id module_id w :
  let issues := ModuleIssueViewSet.requested_issues request in
  let t := moduleissue_table (db w) in
  ∃ resp calls d',
    ModuleIssueViewSet.create request slug project_id module_id w
      = (Returns resp, mkWorld d' (trace w ++ calls))
    ∧ (status resp = HTTP_200_OK ∨ status resp = HTTP_400_BAD_REQUEST)
    ∧ ((∃ module task later,
          writes_pass (db w) request slug project_id module_id module
          ∧ d' = set_moduleissue_table
                   (apply_plan (ModuleIssueViewSet.plan request project_id
                                  module_id module issues (fetch issues t)) t)
                   (db w)
          ∧ calls =
              [Module_get slug project_id module_id;
               ModuleIssue_filter issues;
               ModuleIssue_bulk_create
                 (to_create (ModuleIssueViewSet.plan request project_id
                               module_id module issues (fetch issues t)));
               ModuleIssue_bulk_update
                 (to_update (ModuleIssueViewSet.plan request project_id
                               module_id module issues (fetch issues t)));
               issue_activity_delay task] ++ later
          ∧ Forall (λ ev, is_activity_task ev = false
                          ∧ is_link_write ev = false) later)
       ∨ ((∀ module,
             ¬ writes_pass (db w) request slug project_id module_id module)
          ∧ d' = db w
          ∧ status resp = HTTP_400_BAD_REQUEST
          ∧ Forall (λ ev, is_activity_task ev = false) calls)).
Proof.
  intros issues t.
  unfold ModuleIssueViewSet.create, try_except. fold issues.
  case_decide as Hlen.
  { exists issues_required, [], (db w). rewrite app_nil_r.
    split; [by destruct w|]. split; [by right|]. right.
    split; [|by repeat split].
    intros m (Hne & _). apply Hne. by apply nil_length_inv. }
  unfold Module_objects_get, ModuleIssue_objects_filter,
    ModuleIssue_objects_bulk_create, ModuleIssue_objects_bulk_update,
    ModuleIssueViewSet.get_queryset,
    ModuleIssueViewSet.call_issue_activity_delay,
    mbind, View_bind, emit, read_db, write_db, raise.
  cbn -[bulk_update_rows bulk_create_rows ModuleIssueViewSet.plan fetch].
  destruct (filter _ (module_table (db w))) as [|m [|m' l]] eqn:Hget;
    cbn -[bulk_update_rows bulk_create_rows ModuleIssueViewSet.plan fetch].
  { eexists module_does_not_exist, _, (db w).
    split; [reflexivity|]. split; [by right|]. right.
    split; [|by repeat split; repeat constructor].
    intros m (_ & Hget' & _). unfold issues in *. congruence. }
  2:{ eexists generic_failure, _, (db w). rewrite <- !app_assoc.
      split; [reflexivity|]. split; [by right|]. right.
      split; [|by repeat split; repeat constructor].
      intros m0 (_ & Hget' & _). congruence. }
  fold t.
  set (p := ModuleIssueViewSet.plan request project_id module_id m issues
              (fetch issues t)).
  case_decide as Hparse;
    cbn -[bulk_update_rows bulk_create_rows ModuleIssueViewSet.plan fetch].
  2:{ eexists generic_failure, _, (db w). rewrite <- !app_assoc.
      split; [reflexivity|]. split; [by right|]. right.
      split; [|by repeat split; repeat constructor].
      intros m0 (_ & _ & Hparse' & _). done. }
  fold p.
  rewrite (decide_True (P := Forall _ (to_create p)))
    by (by apply to_create_texts).
  case_decide as Hfk;
    cbn -[bulk_update_rows bulk_create_rows ModuleIssueViewSet.plan fetch].
  2:{ eexists generic_failure, _, (db w). rewrite <- !app_assoc.
      split; [reflexivity|]. split; [by right|]. right.
      split; [|by repeat split; repeat constructor].
      intros m0 (_ & Hget' & _ & Hfk' & _).
      assert (m0 = m) as -> by congruence. done. }
  case_decide as Hpk;
    cbn -[bulk_update_rows bulk_create_rows ModuleIssueViewSet.plan fetch].
  2:{ eexists generic_failure, _, (db w). rewrite <- !app_assoc.
      split.
      { rewrite (nothing_to_create_when_updating request project_id
                   module_id m issues (fetch issues t)).
        - unfold bulk_create_rows. cbn [foldl].
          rewrite set_moduleissue_table_same. reflexivity.
        - intros Hnil. apply Hpk. unfold t in Hnil. rewrite Hnil.
          constructor. }
      split; [by right|]. right.
      split; [|by repeat split; repeat constructor].
      intros m0 (_ & Hget' & _ & _ & Hpk').
      assert (m0 = m) as -> by congruence. done. }
  assert (Hpass : writes_pass (db w) request slug project_id module_id m).
  { split.
    - intros Hnil. apply Hlen. unfold issues. by rewrite Hnil.
    - by repeat split. }
  destruct (delay _) as [e|] eqn:Hdelay;
    cbn -[bulk_update_rows bulk_create_rows ModuleIssueViewSet.plan fetch].
  { destruct e;
      cbn -[bulk_update_rows bulk_create_rows ModuleIssueViewSet.plan fetch];
      eexists _, _, _; rewrite <- !app_assoc;
      (split; [reflexivity|]); (split; [by right|]); left;
      eexists m, _, _; (split; [exact Hpass|]);
      (split; [reflexivity|]); (split; [reflexivity|]);
      by repeat constructor. }
  destruct (filter_queryset _ _) as [rows|e];
    cbn -[bulk_update_rows bulk_create_rows ModuleIssueViewSet.plan fetch].
  { eexists _, _, _. rewrite <- !app_assoc.
    split; [reflexivity|]. split; [by left|]. left.
    eexists m, _, _. split; [exact Hpass|].
    split; [reflexivity|]. split; [reflexivity|]. by repeat constructor. }
  destruct e;
    cbn -[bulk_update_rows bulk_create_rows ModuleIssueViewSet.plan fetch];
    eexists _, _, _; rewrite <- ?app_assoc;
    (split; [reflexivity|]); (split; [by right|]); left;
    eexists m, _, _; (split; [exact Hpass|]);
    (split; [reflexivity|]); (split; [reflexivity|]);
    by repeat constructor.
Qed.

(** X7: the bulk-add view answers every request: no exception leaves it,
    and the status of the response is 200 or 400. *)
Theorem bulk_add_always_answers `{!Collaborators}
    request slug project_id module_id w :
  ∃ resp w',
    ModuleIssueViewSet.create request slug project_id module_id w
      = (Returns resp, w')
    ∧ (status resp = HTTP_200_OK ∨ status resp = HTTP_400_BAD_REQUEST).
Proof.
  destruct (create_outcome request slug project_id module_id w)
    as (resp & calls & d' & Hrun & Hstatus & _).
  by exists resp, (mkWorld d' (trace w ++ calls)).
Qed.

(** X8: the bulk-add view writes to the link table only, and never removes
    a link.  Projects, modules and memberships are as they were; every link
    stored before is still stored, under the same key and for the same
    issue; the trace of calls only grows. *)
Theorem bulk_add_keeps_tables_and_links `{!Collaborators}
    request slug project_id module_id w :
  let w' := snd (ModuleIssueViewSet.create request slug project_id module_id w) in
  project_table (db w') = project_table (db w)
  ∧ module_table (db w') = module_table (db w)
  ∧ projectmember_table (db w') = projectmember_table (db w)
  ∧ (∀ x, x ∈ moduleissue_table (db w) →
       ∃ x', x' ∈ moduleissue_table (db w')
             ∧ ModuleIssue.pk x' = ModuleIssue.pk x
             ∧ ModuleIssue.issue_id x' = ModuleIssue.issue_id x)
  ∧ length (moduleissue_table (db w)) ≤ length (moduleissue_table (db w'))
  ∧ ∃ calls, trace w' = trace w ++ calls.
Proof.
  cbn zeta.
  destruct (create_outcome request slug project_id module_id w)
    as (resp & calls & d' & -> & _ & Hcases).
  cbn [snd db trace].
  destruct Hcases as [(m & task & later & _ & -> & _)|(_ & -> & _)].
  - destruct (apply_plan_shape
                (ModuleIssueViewSet.plan request project_id module_id m
                   (ModuleIssueViewSet.requested_issues request)
                   (fetch (ModuleIssueViewSet.requested_issues request)
                          (moduleissue_table (db w))))
                (moduleissue_table (db w))) as (f & added & Hshape & Hf).
    cbn [moduleissue_table project_table module_table projectmember_table
         set_moduleissue_table].
    rewrite Hshape. split; [done|]. split; [done|]. split; [done|].
    split; [|split].
    + intros x Hx. exists (f x). destruct (Hf x) as [Hi Hk].
      split; [|done]. apply list_elem_of_fmap_2, elem_of_app. by left.
    + rewrite length_fmap, length_app. lia.
    + by exists calls.
  - split; [done|]. split; [done|]. split; [done|].
    split; [|split; [done|by exists calls]].
    intros x Hx. by exists x.
Qed.

(** ** The successful run and its repetition *)

(** X9: when both batched writes go through, the task queue accepts the
    task and the filter backends pass the rows, the view answers 200 after
    exactly six calls, in this order: the module lookup, the link query, the
    batched insert of the create-plan, the batched update of the
    update-plan, one activity task for the whole request (whose issue id is
    the text [None]), and the listing.  The link table it leaves is the plan
    applied, and every row of the response is a stored link of the target
    module. *)
Theorem bulk_add_success_calls `{!Collaborators}
    request slug project_id module_id w module :
  let issues := ModuleIssueViewSet.requested_issues request in
  let p := ModuleIssueViewSet.plan request project_id module_id module issues
             (fetch issues (moduleissue_table (db w))) in
  writes_pass (db w) request slug project_id module_id module →
  (∀ task, delay task = None) →
  (∀ rows, filter_queryset (ModuleIssueViewSet.query_params request) rows
           = Returns rows) →
  ∃ rows w',
    ModuleIssueViewSet.create request slug project_id module_id w
      = (Returns (mkResponse (ModuleIssueList rows) HTTP_200_OK), w')
    ∧ moduleissue_table (db w') = apply_plan p (moduleissue_table (db w))
    ∧ trace w' = trace w ++
        [Module_get slug project_id module_id;
         ModuleIssue_filter issues;
         ModuleIssue_bulk_create (to_create p);
         ModuleIssue_bulk_update (to_update p);
         issue_activity_delay
           (mkActivityTask issues
              (str (ModuleIssueViewSet.request_user request)) "None"
              (str project_id) (activity p) (to_create p));
         ModuleIssue_list slug project_id module_id
           (ModuleIssueViewSet.request_user request)]
    ∧ Forall (λ row, row ∈ moduleissue_table (db w')
                     ∧ ModuleIssue.module_id row = module_id) rows.
Proof.
  intros issues p (Hne & Hget & Hparse & Hfk & Hpk) Hdelay Hfilter.
  unfold ModuleIssueViewSet.create, try_except.
  rewrite decide_False by (by intros ?%nil_length_inv).
  unfold Module_objects_get, ModuleIssue_objects_filter,
    ModuleIssue_objects_bulk_create, ModuleIssue_objects_bulk_update,
    ModuleIssueViewSet.get_queryset,
    ModuleIssueViewSet.call_issue_activity_delay,
    mbind, View_bind, emit, read_db, write_db, raise.
  cbn -[bulk_update_rows bulk_create_rows ModuleIssueViewSet.plan fetch].
  rewrite Hget.
  cbn -[bulk_update_rows bulk_create_rows ModuleIssueViewSet.plan fetch].
  rewrite (decide_True (P := Forall _ (ModuleIssueViewSet.requested_issues _)))
    by exact Hparse.
  cbn -[bulk_update_rows bulk_create_rows ModuleIssueViewSet.plan fetch].
  fold issues. fold p.
  rewrite (decide_True (P := Forall _ (to_create p)))
    by (by apply to_create_texts).
  rewrite (decide_True (P := Forall _ (drop _ _))) by exact Hfk.
  cbn -[bulk_update_rows bulk_create_rows ModuleIssueViewSet.plan fetch].
  rewrite (decide_True (P := Forall _ (to_update p))) by exact Hpk.
  cbn -[bulk_update_rows bulk_create_rows ModuleIssueViewSet.plan fetch].
  rewrite Hdelay.
  cbn -[bulk_update_rows bulk_create_rows ModuleIssueViewSet.plan fetch].
  rewrite Hfilter.
  cbn -[bulk_update_rows bulk_create_rows ModuleIssueViewSet.plan fetch].
  eexists _, _. split; [reflexivity|].
  cbn -[bulk_update_rows bulk_create_rows ModuleIssueViewSet.plan fetch].
  split; [done|]. split; [by rewrite <- !app_assoc|].
  apply Forall_forall. intros row Hrow.
  apply list_elem_of_filter in Hrow. tauto.
Qed.

Lemma bulk_add_success_calls_witness :
  let w := mkWorld (database_with [link 1 "A" "M1"; link 2 "B" "M1"]) [] in
  writes_pass (db w) (bulk_add ["B"; "C"]) "acme" "P" "M2" M2
  ∧ ∃ rows w',
    ModuleIssueViewSet.create (bulk_add ["B"; "C"]) "acme" "P" "M2" w
      = (Returns (mkResponse (ModuleIssueList rows) HTTP_200_OK), w')
    ∧ moduleissue_table (db w')
      = apply_plan (ModuleIssueViewSet.plan (bulk_add ["B"; "C"]) "P" "M2" M2
                      ["B"; "C"]
                      (fetch ["B"; "C"] [link 1 "A" "M1"; link 2 "B" "M1"]))
                   [link 1 "A" "M1"; link 2 "B" "M1"]
    ∧ length (trace w') = 6
    ∧ Forall (λ row, row ∈ moduleissue_table (db w')
                     ∧ ModuleIssue.module_id row = "M2") rows.
Proof.
  cbn zeta.
  assert (Hpass : writes_pass
            (db (mkWorld (database_with [link 1 "A" "M1"; link 2 "B" "M1"]) []))
            (bulk_add ["B"; "C"]) "acme" "P" "M2" M2).
  { unfold writes_pass. cbn zeta. split; [by vm_compute|].
    split; [by vm_compute|].
    split; [by apply (bool_decide_unpack _)|].
    split; by apply (bool_decide_unpack _). }
  split; [exact Hpass|].
  destruct (bulk_add_success_calls (bulk_add ["B"; "C"]) "acme" "P" "M2"
              (mkWorld (database_with [link 1 "A" "M1"; link 2 "B" "M1"]) [])
              M2 Hpass)
    as (rows & w' & Hrun & Htable & Htrace & Hrows); [done..|].
  exists rows, w'. split; [exact Hrun|]. split; [exact Htable|].
  split; [by rewrite Htrace|exact Hrows].
Defined.

(** X10: the view is idempotent on the database, on every input.  Whatever
    the first run did, and however either run was answered, a second run of
    the same request leaves the database exactly as the first run left it. *)
Theorem bulk_add_twice_changes_nothing_more `{!Collaborators}
    request slug project_id module_id w :
  let w1 := snd (ModuleIssueViewSet.create request slug project_id module_id w) in
  let w2 := snd (ModuleIssueViewSet.create request slug project_id module_id w1) in
  db w2 = db w1.
Proof.
  cbn zeta.
  destruct (create_outcome request slug project_id module_id w)
    as (resp & calls & d1 & -> & _ & Hfirst).
  cbn [snd].
  destruct (create_outcome request slug project_id module_id
              (mkWorld d1 (trace w ++ calls)))
    as (resp2 & calls2 & d2 & -> & _ & Hsecond).
  cbn [snd db] in *.
  destruct Hsecond as [(m2 & task2 & later2 & Hpass2 & -> & _)|(_ & -> & _)];
    [|done].
  destruct Hfirst as [(m & task & later & Hpass & -> & _)|(Hnever & -> & _)].
  - destruct Hpass as (_ & Hget & _). destruct Hpass2 as (_ & Hget2 & _).
    cbn in Hget2. assert (m2 = m) as -> by congruence.
    cbn [moduleissue_table set_moduleissue_table].
    rewrite apply_plan_twice by (by eapply found_module_has_the_key).
    by destruct (db w).
  - by destruct (Hnever m2).
Qed.

(** ** What a run guarantees for the requested issues *)

(** X5: a request for a single issue, named by its canonical text, does
    what the endpoint is for.  If the issue is stored, the module exists and
    the rows of the link table have keys, then after the run the issue is
    linked to the target module, whether it had no link (one is inserted), a
    link elsewhere (it is moved) or a link there already, and whatever
    happens after the two writes. *)
Theorem single_issue_ends_in_target `{!Collaborators}
    request slug project_id module_id w module i :
  ModuleIssueViewSet.requested_issues request = [i] →
  canonical i →
  i ∈ issue_table (db w) →
  filter (λ m, Module_.workspace m = slug ∧ Module_.project_id m = project_id
               ∧ Module_.pk m = module_id) (module_table (db w)) = [module] →
  all_saved (moduleissue_table (db w)) →
  linked_to
    (moduleissue_table
       (db (snd (ModuleIssueViewSet.create request slug project_id module_id w))))
    i module_id.
Proof.
  intros Hreq Hcan Hstored Hget Hsaved.
  pose proof (found_module_has_the_key _ _ _ _ _ Hget) as Hkey.
  set (t := moduleissue_table (db w)).
  set (p := ModuleIssueViewSet.plan request project_id module_id module [i]
              (fetch [i] t)).
  assert (Hcreated : ∀ row,
            row ∈ drop (length t) (bulk_create_rows (to_create p) t) →
            ModuleIssue.issue_id row = i
            ∧ ModuleIssue.module_id row = module_id).
  { intros row Hrow.
    destruct (bulk_create_rows_appends (to_create p) t)
      as (added & Hadded & Hprops).
    rewrite Hadded, drop_app_length in Hrow.
    apply (proj1 (Forall_forall _ _) Hprops) in Hrow as (o & Ho & Hpy & Hmod).
    pose proof (proj1 (created_links_carry_the_request_texts_aux
                         request project_id module_id module [i] (fetch [i] t)))
      as Hfields.
    apply (proj1 (Forall_forall _ _) Hfields) in Ho as (Hm & _ & _ & _ & _ & Hin).
    apply list_elem_of_singleton in Hin. rewrite Hin, Hcan in Hpy.
    injection Hpy as <-. by rewrite Hmod, Hm. }
  assert (Hpass : writes_pass (db w) request slug project_id module_id module).
  { unfold writes_pass. cbn zeta. rewrite Hreq. fold t. fold p.
    split; [done|]. split; [done|]. split.
    - constructor; [|constructor]. by rewrite Hcan.
    - split; [|by apply to_update_saved].
      apply Forall_forall. intros row Hrow.
      by destruct (Hcreated row Hrow) as [-> _]. }
  destruct (create_outcome request slug project_id module_id w)
    as (resp & calls & d' & -> & _ & Hcases).
  cbn [snd db].
  destruct Hcases as [(m & task & later & Hpass' & -> & _)|(Hnever & _)];
    [|by destruct (Hnever module)].
  destruct Hpass' as (_ & Hget' & _).
  assert (m = module) as -> by congruence.
  cbn [moduleissue_table set_moduleissue_table]. rewrite Hreq. fold t. fold p.
  (* the table the plan leaves *)
  unfold p at 1. unfold p in Hcreated. clear Hpass. revert Hcreated.
  rewrite plan_cases.
  destruct (matching [i] (fetch [i] t)) as [|o rest] eqn:Hm.
  - intros Hcreated. unfold apply_plan.
    cbn [to_create to_update bulk_update_rows foldl] in *.
    set (news := new_ModuleIssue (ModuleIssueViewSet.request_user request)
                                 project_id module <$> [i]) in *.
    assert (Hcov : i ∈ ModuleIssue.issue_id <$> bulk_create_rows news t).
    { apply (bulk_create_rows_covers news t
               (new_ModuleIssue (ModuleIssueViewSet.request_user request)
                                project_id module i)); [by left|done]. }
    apply list_elem_of_fmap in Hcov as (x & Hxi & Hx).
    exists x. split; [done|]. split; [done|].
    destruct (bulk_create_rows_appends news t) as (added & Hadded & _).
    pose proof Hx as Hx'. rewrite Hadded in Hx'.
    apply elem_of_app in Hx' as [Hold|Hnew].
    + exfalso.
      assert (Hsel : x ∈ matching [i] (fetch [i] t)).
      { apply list_elem_of_filter. split; [unfold str; rewrite <- Hxi; by left|].
        apply fetch_elem. split; [done|]. exists i. split; [by left|].
        by rewrite <- Hxi. }
      rewrite Hm in Hsel. by apply elem_of_nil in Hsel.
    + apply Hcreated. by rewrite Hadded, drop_app_length.
  - intros _. destruct (matching_elem _ _ _ _ Hm) as [Hin Ho].
    apply fetch_elem in Ho as [Ho _].
    apply list_elem_of_singleton in Hin. unfold str in Hin.
    case_decide as Hmod.
    + exists o. by repeat split.
    + unfold apply_plan.
      cbn [to_create to_update bulk_create_rows bulk_update_rows foldl].
      exists (ModuleIssue.set_module_id module_id o). split; [|done].
      apply list_elem_of_fmap. exists o. split; [|done].
      unfold update_row. by rewrite decide_True.
Qed.

Lemma single_issue_ends_in_target_witness :
  let w := mkWorld (database_with [link 1 "A" "M1"; link 2 "B" "M1"]) [] in
  ModuleIssueViewSet.requested_issues (bulk_add ["B"]) = ["B"]
  ∧ canonical "B"
  ∧ "B" ∈ issue_table (db w)
  ∧ all_saved (moduleissue_table (db w))
  ∧ linked_to
      (moduleissue_table
         (db (snd (ModuleIssueViewSet.create (bulk_add ["B"]) "acme" "P" "M2" w))))
      "B" "M2".
Proof.
  cbn zeta.
  assert (H1 : ModuleIssueViewSet.requested_issues (bulk_add ["B"]) = ["B"])
    by (by vm_compute).
  assert (H2 : canonical "B") by (by vm_compute).
  assert (H3 : "B" ∈ issue_table
                 (db (mkWorld (database_with [link 1 "A" "M1"; link 2 "B" "M1"])
                              [])))
    by (by apply (bool_decide_unpack _)).
  assert (H4 : all_saved
                 (moduleissue_table
                    (db (mkWorld (database_with [link 1 "A" "M1"; link 2 "B" "M1"])
                                 []))))
    by (by apply (bool_decide_unpack _)).
  split; [exact H1|]. split; [exact H2|]. split; [exact H3|].
  split; [exact H4|].
  apply (single_issue_ends_in_target (bulk_add ["B"]) "acme" "P" "M2"
           (mkWorld (database_with [link 1 "A" "M1"; link 2 "B" "M1"]) [])
           M2 "B" H1 H2 H3); [by vm_compute|exact H4].
Defined.

(** X6: when no requested issue has a link, every requested text denotes a
    stored issue and the module exists, every requested issue is linked to
    the target module after the run, whatever the spelling of the texts and
    also for a request with duplicates: the extra creates are dropped by the
    conflict-tolerant insert. *)
Theorem unlinked_issues_all_end_in_target `{!Collaborators}
    request slug project_id module_id w module :
  let issues := ModuleIssueViewSet.requested_issues request in
  issues ≠ [] →
  (∀ i, i ∈ issues → ∃ u, to_python i = Some u ∧ u ∈ issue_table (db w)) →
  (∀ i, i ∈ issues → ¬ issue_has_link (moduleissue_table (db w)) i) →
  filter (λ m, Module_.workspace m = slug ∧ Module_.project_id m = project_id
               ∧ Module_.pk m = module_id) (module_table (db w)) = [module] →
  ∀ i, i ∈ issues →
    issue_linked_to
      (moduleissue_table
         (db (snd (ModuleIssueViewSet.create request slug project_id module_id w))))
      i module_id.
Proof.
  intros issues Hne Hstored Hnone Hget i Hi.
  pose proof (found_module_has_the_key _ _ _ _ _ Hget) as Hkey.
  set (t := moduleissue_table (db w)).
  set (news := new_ModuleIssue (ModuleIssueViewSet.request_user request)
                               project_id module <$> issues).
  assert (Hplan : ModuleIssueViewSet.plan request project_id module_id module
                    issues (fetch issues t) = mkPlan news [] []).
  { rewrite plan_cases, (fetch_no_links issues t) by exact Hnone. done. }
  destruct (bulk_create_rows_appends news t) as (added & Hadded & Hprops).
  assert (Hnew : ∀ row, row ∈ added →
            ModuleIssue.module_id row = module_id
            ∧ ∃ j, j ∈ issues
                   ∧ to_python j = Some (ModuleIssue.issue_id row)).
  { intros row Hrow.
    apply (proj1 (Forall_forall _ _) Hprops) in Hrow as (o & Ho & Hpy & Hmod).
    apply list_elem_of_fmap in Ho as (j & -> & Hj).
    split; [by rewrite Hmod|]. by exists j. }
  assert (Hpass : writes_pass (db w) request slug project_id module_id module).
  { unfold writes_pass. cbn zeta. fold issues. fold t. rewrite Hplan.
    cbn [to_create to_update]. split; [done|]. split; [done|]. split.
    - apply Forall_forall. intros j Hj.
      destruct (Hstored j Hj) as (u & -> & _). by eexists.
    - split; [|constructor]. rewrite Hadded, drop_app_length.
      apply Forall_forall. intros row Hrow.
      destruct (Hnew row Hrow) as (_ & j & Hj & Hpy).
      destruct (Hstored j Hj) as (u & Hu & Hin). congruence. }
  destruct (create_outcome request slug project_id module_id w)
    as (resp & calls & d' & -> & _ & Hcases).
  cbn [snd db].
  destruct Hcases as [(m & task & later & Hpass' & -> & _)|(Hnever & _)];
    [|by destruct (Hnever module)].
  destruct Hpass' as (_ & Hget' & _).
  assert (m = module) as -> by congruence.
  cbn [moduleissue_table set_moduleissue_table]. fold issues. fold t.
  rewrite Hplan. unfold apply_plan.
  cbn [to_create to_update bulk_update_rows foldl].
  destruct (Hstored i Hi) as (u & Hu & _).
  exists u. split; [done|].
  assert (Hcov : u ∈ ModuleIssue.issue_id <$> bulk_create_rows news t).
  { apply (bulk_create_rows_covers news t
             (new_ModuleIssue (ModuleIssueViewSet.request_user request)
                              project_id module i)); [|done].
    by apply list_elem_of_fmap_2. }
  apply list_elem_of_fmap in Hcov as (x & Hxu & Hx).
  exists x. split; [done|]. split; [done|].
  rewrite Hadded in Hx. apply elem_of_app in Hx as [Hold|Hadd].
  - destruct (Hnone i Hi). exists u. split; [done|]. by exists x.
  - by destruct (Hnew x Hadd).
Qed.

Lemma unlinked_issues_all_end_in_target_witness :
  let w := mkWorld (database_with [link 1 "A" "M1"]) [] in
  let issues := ModuleIssueViewSet.requested_issues (bulk_add ["c"; "C"]) in
  issues ≠ []
  ∧ (∀ i, i ∈ issues → ∃ u, to_python i = Some u ∧ u ∈ issue_table (db w))
  ∧ (∀ i, i ∈ issues → ¬ issue_has_link (moduleissue_table (db w)) i)
  ∧ issue_linked_to
      (moduleissue_table
         (db (snd (ModuleIssueViewSet.create (bulk_add ["c"; "C"]) "acme" "P"
                     "M2" w))))
      "c" "M2".
Proof.
  cbn zeta.
  assert (Hreq : ModuleIssueViewSet.requested_issues (bulk_add ["c"; "C"])
                 = ["c"; "C"]) by (by vm_compute).
  rewrite Hreq.
  assert (H1 : ["c"; "C"] ≠ []) by done.
  assert (H2 : ∀ i, i ∈ ["c"; "C"] →
            ∃ u, to_python i = Some u
                 ∧ u ∈ issue_table
                       (db (mkWorld (database_with [link 1 "A" "M1"]) []))).
  { intros i Hi. exists "C". apply elem_of_cons in Hi as [->|Hi];
      [|apply list_elem_of_singleton in Hi as ->];
      (split; [by vm_compute|by apply (bool_decide_unpack _)]). }
  assert (H3 : ∀ i, i ∈ ["c"; "C"] →
            ¬ issue_has_link
                (moduleissue_table
                   (db (mkWorld (database_with [link 1 "A" "M1"]) []))) i).
  { intros i Hi (u & Hu & o & Ho & Hou).
    apply list_elem_of_singleton in Ho. subst o. cbn in Hou. subst u.
    apply elem_of_cons in Hi as [->|Hi];
      [|apply list_elem_of_singleton in Hi as ->]; by vm_compute in Hu. }
  split; [exact H1|]. split; [exact H2|]. split; [exact H3|].
  apply (unlinked_issues_all_end_in_target (bulk_add ["c"; "C"]) "acme" "P"
           "M2" (mkWorld (database_with [link 1 "A" "M1"]) []) M2).
  - by rewrite Hreq.
  - by rewrite Hreq.
  - by rewrite Hreq.
  - by vm_compute.
  - rewrite Hreq. by left.
Defined.

(** ** The module-create view on every input *)

Section ModuleCreateFacts.
Variable is_valid : gmap string string → bool.
Variable errors : gmap string string → list (string * string).
Variable new_pk : Database → UUID.
Variable unique_violation : string → UUID → string.

Local Abbreviation module_create :=
  (ModuleViewSet.create is_valid errors new_pk unique_violation).

(** The outcomes of the module-create view, one per path of lines 71-98. *)
Lemma module_create_shape request slug project_id w :
  let name := default "" (ModuleViewSet.request_data request !! "name") in
  (∃ resp calls,
     module_create request slug project_id w
       = (Returns (Some resp), mkWorld (db w) (trace w ++ calls))
     ∧ (status resp = HTTP_400_BAD_REQUEST ∨ status resp = HTTP_404_NOT_FOUND
        ∨ status resp = HTTP_410_GONE))
  ∨ (∃ calls,
       module_create request slug project_id w
         = (Returns None, mkWorld (db w) (trace w ++ calls)))
  ∨ (∃ m calls,
       module_create request slug project_id w
         = (Returns (Some (mkResponse (SerializerData m) HTTP_201_CREATED)),
            mkWorld (mkDatabase (project_table (db w))
                                (module_table (db w) ++ [m])
                                (moduleissue_table (db w))
                                (projectmember_table (db w))
                                (issue_table (db w)))
                    (trace w ++ calls))
       ∧ Module_.name m = name ∧ Module_.project_id m = project_id
       ∧ Module_.workspace m = slug
       ∧ ¬ Exists (λ m', Module_.name m' = name
                         ∧ Module_.project_id m' = project_id)
                  (module_table (db w))).
Proof.
  cbn zeta.
  unfold ModuleViewSet.create, try_except, ModuleViewSet.Project_objects_get,
    ModuleViewSet.serializer_save, mbind, View_bind, emit, read_db, write_db,
    raise.
  cbn.
  destruct (filter _ (project_table (db w))) as [|pr [|pr' l]] eqn:Hp; cbn.
  - left. eexists _, _. split; [reflexivity|]. cbn. tauto.
  - assert (Hpr : pr.2 = slug ∧ pr.1 = project_id).
    { assert (Hin : pr ∈ filter (λ p : UUID * string,
                                   p.2 = slug ∧ p.1 = project_id)
                                (project_table (db w)))
        by (rewrite Hp; by left).
      by apply list_elem_of_filter in Hin as [? _]. }
    destruct Hpr as [Hslug Hproj].
    destruct (is_valid (ModuleViewSet.request_data request)); cbn.
    + case_decide as Htaken; cbn.
      * destruct (contains "already exists" _); cbn.
        -- left. eexists _, _. rewrite <- !app_assoc.
           split; [reflexivity|]. cbn. tauto.
        -- right. left. eexists. by rewrite <- !app_assoc.
      * right. right. eexists _, _. rewrite <- !app_assoc.
        split; [reflexivity|]. cbn. rewrite <- Hproj. by repeat split.
    + left. eexists _, _. split; [reflexivity|]. cbn. tauto.
  - left. eexists _, _. rewrite <- !app_assoc.
    split; [reflexivity|]. cbn. tauto.
Qed.

(** X11: the module-create view lets no exception out.  It ends with a
    response whose status is 201, 400, 404 or 410, or, on one path, with no
    response at all. *)
Theorem module_create_always_returns request slug project_id w :
  ∃ r w',
    module_create request slug project_id w = (Returns r, w')
    ∧ match r with
      | Some resp =>
          status resp = HTTP_201_CREATED ∨ status resp = HTTP_400_BAD_REQUEST
          ∨ status resp = HTTP_404_NOT_FOUND ∨ status resp = HTTP_410_GONE
      | None => True
      end.
Proof.
  destruct (module_create_shape request slug project_id w)
    as [(resp & calls & Hrun & Hst)|[(calls & Hrun)|(m & calls & Hrun & _)]];
    eexists _, _; (split; [exact Hrun|]); cbn; tauto.
Qed.

(** X12: the module-create view changes the database on the 201 path only,
    and there it appends one module, with the requested name, to the project
    and workspace of the URL, where no module of the project had that name.
    Projects, links and memberships are never written. *)
Theorem module_create_writes_on_success_only request slug project_id w :
  let name := default "" (ModuleViewSet.request_data request !! "name") in
  let r := fst (module_create request slug project_id w) in
  let w' := snd (module_create request slug project_id w) in
  project_table (db w') = project_table (db w)
  ∧ moduleissue_table (db w') = moduleissue_table (db w)
  ∧ projectmember_table (db w') = projectmember_table (db w)
  ∧ ((∃ m, r = Returns (Some (mkResponse (SerializerData m) HTTP_201_CREATED))
           ∧ module_table (db w') = module_table (db w) ++ [m]
           ∧ Module_.name m = name ∧ Module_.project_id m = project_id
           ∧ Module_.workspace m = slug
           ∧ ¬ Exists (λ m', Module_.name m' = name
                             ∧ Module_.project_id m' = project_id)
                      (module_table (db w)))
     ∨ (db w' = db w
        ∧ ∀ resp, r = Returns (Some resp) → status resp ≠ HTTP_201_CREATED)).
Proof.
  cbn zeta.
  destruct (module_create_shape request slug project_id w)
    as [(resp & calls & -> & Hst)|[(calls & ->)|(m & calls & -> & Hm)]]; cbn.
  - repeat split. right. split; [done|].
    intros resp' [= <-]. unfold HTTP_201_CREATED, HTTP_400_BAD_REQUEST,
      HTTP_404_NOT_FOUND, HTTP_410_GONE in *. lia.
  - repeat split. right. by split.
  - repeat split. left. by exists m.
Qed.

(** X13: a missing project is answered 404 before the request body is looked
    at: whatever the payload, the only call is the project lookup and the
    database is unchanged. *)
Theorem module_create_without_project request slug project_id w :
  filter (λ p : UUID * string, p.2 = slug ∧ p.1 = project_id)
         (project_table (db w)) = [] →
  module_create request slug project_id w
  = (Returns (Some (mkResponse (Dict [("error", "Project was not found")])
                               HTTP_404_NOT_FOUND)),
     mkWorld (db w) (trace w ++ [Project_get slug project_id])).
Proof.
  intros Hnone.
  unfold ModuleViewSet.create, try_except, ModuleViewSet.Project_objects_get,
    mbind, View_bind, emit, read_db, raise.
  cbn. by rewrite Hnone.
Qed.

(** X14: a payload the serializer rejects is answered 400 with the
    serializer's errors; nothing is saved, so a taken name is not even
    noticed, and the database is unchanged. *)
Theorem module_create_invalid_payload request slug project_id w :
  filter (λ p : UUID * string, p.2 = slug ∧ p.1 = project_id)
         (project_table (db w)) = [(project_id, slug)] →
  is_valid (ModuleViewSet.request_data request) = false →
  module_create request slug project_id w
  = (Returns (Some (mkResponse (Dict (errors (ModuleViewSet.request_data request)))
                               HTTP_400_BAD_REQUEST)),
     mkWorld (db w) (trace w ++ [Project_get slug project_id])).
Proof.
  intros Hproject Hinvalid.
  unfold ModuleViewSet.create, try_except, ModuleViewSet.Project_objects_get,
    mbind, View_bind, emit, read_db, raise.
  cbn. by rewrite Hproject, Hinvalid.
Qed.

(** X15: when the save fails on a taken name and the engine's error text
    does not contain ["already exists"], the [except IntegrityError] clause
    returns nothing: the view ends without a response, without the 410 and
    without reporting the exception, which the generic clause never sees. *)
Theorem module_create_conflict_without_phrase request slug project_id w :
  let name := default "" (ModuleViewSet.request_data request !! "name") in
  filter (λ p : UUID * string, p.2 = slug ∧ p.1 = project_id)
         (project_table (db w)) = [(project_id, slug)] →
  is_valid (ModuleViewSet.request_data request) = true →
  Exists (λ m, Module_.name m = name ∧ Module_.project_id m = project_id)
         (module_table (db w)) →
  contains "already exists" (unique_violation name project_id) = false →
  module_create request slug project_id w
  = (Returns None,
     mkWorld (db w)
             (trace w ++ [Project_get slug project_id;
                          Module_save name project_id])).
Proof.
  intros name Hproject Hvalid Htaken Htext.
  unfold ModuleViewSet.create, try_except, ModuleViewSet.Project_objects_get,
    ModuleViewSet.serializer_save, mbind, View_bind, emit, read_db.
  cbn. rewrite Hproject, Hvalid. cbn. fold name.
  rewrite decide_True by exact Htaken. cbn. rewrite Htext.
  by rewrite <- !app_assoc.
Qed.
End ModuleCreateFacts.

Lemma module_create_without_project_witness :
  ModuleViewSet.create (λ _, true) (λ _, []) (λ _, "M3")
    postgres_unique_violation
    (ModuleViewSet.mkRequest {["name" := "Backlog"]}) "acme" "Q"
    (mkWorld (database_with []) [])
  = (Returns (Some (mkResponse (Dict [("error", "Project was not found")])
                               HTTP_404_NOT_FOUND)),
     mkWorld (database_with []) [Project_get "acme" "Q"]).
Proof.
  apply (module_create_without_project (λ _, true) (λ _, []) (λ _, "M3")
           postgres_unique_violation
           (ModuleViewSet.mkRequest {["name" := "Backlog"]}) "acme" "Q"
           (mkWorld (database_with []) [])).
  by vm_compute.
Defined.

Lemma module_create_invalid_payload_witness :
  ModuleViewSet.create (λ _, false) (λ _, [("name", "This field is required.")])
    (λ _, "M3") postgres_unique_violation
    (ModuleViewSet.mkRequest ∅) "acme" "P" (mkWorld (database_with []) [])
  = (Returns (Some (mkResponse (Dict [("name", "This field is required.")])
                               HTTP_400_BAD_REQUEST)),
     mkWorld (database_with []) [Project_get "acme" "P"]).
Proof.
  apply (module_create_invalid_payload (λ _, false)
           (λ _, [("name", "This field is required.")]) (λ _, "M3")
           postgres_unique_violation (ModuleViewSet.mkRequest ∅) "acme" "P"
           (mkWorld (database_with []) [])).
  - by vm_compute.
  - reflexivity.
Defined.

Lemma module_create_conflict_without_phrase_witness :
  ModuleViewSet.create (λ _, true) (λ _, []) (λ _, "M3")
    (λ _ _, "UNIQUE constraint failed: module.name, module.project_id")
    (ModuleViewSet.mkRequest {["name" := "Backlog"]}) "acme" "P"
    (mkWorld (database_with []) [])
  = (Returns None,
     mkWorld (database_with [])
             [Project_get "acme" "P"; Module_save "Backlog" "P"]).
Proof.
  refine (eq_trans
            (module_create_conflict_without_phrase (λ _, true) (λ _, [])
               (λ _, "M3")
               (λ _ _, "UNIQUE constraint failed: module.name, module.project_id")
               (ModuleViewSet.mkRequest {["name" := "Backlog"]}) "acme" "P"
               (mkWorld (database_with []) []) _ _ _ _) _).
  - by vm_compute.
  - reflexivity.
  - by apply (bool_decide_unpack _).
  - by vm_compute.
  - by vm_compute.
Defined.

(** ** Activity tasks and half-done work *)

Lemma no_activity_task_among (calls : list Event) :
  Forall (λ ev, is_activity_task ev = false) calls →
  length (filter (λ ev, is_activity_task ev = true) calls) = 0.
Proof.
  induction 1 as [|ev calls Hev _ IH]; [done|].
  rewrite filter_cons_False by (by rewrite Hev). exact IH.
Qed.

(** X16: the bulk-add view hands over at most one activity task per run,
    however many issues were requested.  It hands over exactly one when both
    batched writes went through, in particular whenever it answers 200, and
    none otherwise; a task is never handed over before the writes. *)
Theorem one_activity_task_after_the_writes `{!Collaborators}
    request slug project_id module_id w :
  ∃ resp w' calls,
    ModuleIssueViewSet.create request slug project_id module_id w
      = (Returns resp, w')
    ∧ trace w' = trace w ++ calls
    ∧ length (filter (λ ev, is_activity_task ev = true) calls) ≤ 1
    ∧ (status resp = HTTP_200_OK →
       length (filter (λ ev, is_activity_task ev = true) calls) = 1)
    ∧ (length (filter (λ ev, is_activity_task ev = true) calls) = 1 ↔
       ∃ module, writes_pass (db w) request slug project_id module_id module)
    ∧ (∀ before task after,
         calls = before ++ issue_activity_delay task :: after →
         length (filter (λ ev, is_link_write ev = true) before) = 2
         ∧ Forall (λ ev, is_link_write ev = false) after).
Proof.
  destruct (create_outcome request slug project_id module_id w)
    as (resp & calls & d' & Hrun & _ & Hcases).
  exists resp, (mkWorld d' (trace w ++ calls)), calls.
  split; [exact Hrun|]. split; [done|].
  destruct Hcases as [(m & task & later & Hpass & _ & -> & Hlater)
                     |(Hnever & _ & Hstatus & Hcalls)].
  - assert (Hcount : length (filter (λ ev, is_activity_task ev = true)
                       ([Module_get slug project_id module_id;
                         ModuleIssue_filter
                           (ModuleIssueViewSet.requested_issues request);
                         ModuleIssue_bulk_create
                           (to_create
                              (ModuleIssueViewSet.plan request project_id
                                 module_id m
                                 (ModuleIssueViewSet.requested_issues request)
                                 (fetch
                                    (ModuleIssueViewSet.requested_issues request)
                                    (moduleissue_table (db w)))));
                         ModuleIssue_bulk_update
                           (to_update
                              (ModuleIssueViewSet.plan request project_id
                                 module_id m
                                 (ModuleIssueViewSet.requested_issues request)
                                 (fetch
                                    (ModuleIssueViewSet.requested_issues request)
                                    (moduleissue_table (db w)))));
                         issue_activity_delay task] ++ later)) = 1).
    { rewrite filter_app, length_app, (no_activity_task_among later).
      - done.
      - eapply Forall_impl; [exact Hlater|]. by intros ev [? _]. }
    rewrite Hcount. split; [lia|]. split; [done|]. split.
    + split; [|done]. intros _. by exists m.
    + intros before task' after Hsplit.
      (* the task is the fifth call: the four before it hold both writes *)
      destruct before as [|e1 [|e2 [|e3 [|e4 [|e5 before]]]]];
        cbn in Hsplit; try discriminate.
      * injection Hsplit as <- <- <- <- <- <-. split; [done|].
        eapply Forall_impl; [exact Hlater|]. by intros ev [_ ?].
      * exfalso. injection Hsplit as _ _ _ _ _ Hrest.
        assert (Hin : issue_activity_delay task' ∈ later).
        { rewrite Hrest. apply elem_of_app. right. by left. }
        apply (proj1 (Forall_forall _ _) Hlater) in Hin as [Hact _].
        discriminate.
  - rewrite (no_activity_task_among calls Hcalls).
    split; [lia|]. split.
    + intros H200. rewrite H200 in Hstatus. discriminate.
    + split.
      * split; [discriminate|]. intros [m Hpass]. by destruct (Hnever m).
      * intros before task after ->. exfalso.
        assert (Hin : issue_activity_delay task
                      ∈ before ++ issue_activity_delay task :: after).
        { apply elem_of_app. right. by left. }
        apply (proj1 (Forall_forall _ _) Hcalls) in Hin. discriminate.
Qed.

(** X17: a run never leaves half of a plan behind.  When both batched
    writes go through the link table is the plan applied in full, whatever
    fails afterwards, so a 400 answer can come with the move or the inserts
    committed; in every other case, and only with a 400 answer, the
    database is exactly as it was. *)
Theorem bulk_add_never_half_applies `{!Collaborators}
    request slug project_id module_id w :
  let issues := ModuleIssueViewSet.requested_issues request in
  let t := moduleissue_table (db w) in
  ∃ resp w',
    ModuleIssueViewSet.create request slug project_id module_id w
      = (Returns resp, w')
    ∧ ((∃ module,
          writes_pass (db w) request slug project_id module_id module
          ∧ db w' = set_moduleissue_table
                      (apply_plan (ModuleIssueViewSet.plan request project_id
                                     module_id module issues (fetch issues t))
                                  t)
                      (db w))
       ∨ ((∀ module,
             ¬ writes_pass (db w) request slug project_id module_id module)
          ∧ db w' = db w
          ∧ status resp = HTTP_400_BAD_REQUEST)).
Proof.
  cbn zeta.
  destruct (create_outcome request slug project_id module_id w)
    as (resp & calls & d' & Hrun & _ & Hcases).
  exists resp, (mkWorld d' (trace w ++ calls)). split; [exact Hrun|].
  destruct Hcases as [(m & task & later & Hpass & -> & _)
                     |(Hnever & -> & Hstatus & _)].
  - left. by exists m.
  - right. by repeat split.
Qed.

(** A task queue that refuses the task: the move is committed and the
    answer is 400. *)
Lemma refused_task_leaves_the_move :
  let refusing : Collaborators := {|
    to_python := name_to_python;
    delay := λ _, Some (OperationalError "broker unreachable");
    filter_queryset := λ _ rows, Returns rows |} in
  @ModuleIssueViewSet.create refusing (bulk_add ["B"]) "acme" "P" "M2"
    (mkWorld (database_with [link 1 "B" "M1"]) [])
  = (Returns generic_failure,
     mkWorld (database_with [link 1 "B" "M2"])
       [Module_get "acme" "P" "M2";
        ModuleIssue_filter ["B"];
        ModuleIssue_bulk_create [];
        ModuleIssue_bulk_update [link 1 "B" "M2"];
        issue_activity_delay
          (mkActivityTask ["B"] "bob" "None" "P" [Delta.mk "M1" "M2" "B"] []);
        capture_exception (OperationalError "broker unreachable")]).
Proof. by vm_compute. Qed.
